(** * Adaptive assessment engine (IRT-based computer adaptive testing)

    Shallow embedding of [services/app/ai_services/adaptive_assessment.py].
    Python floats are modelled by the real numbers [R]; rounding is not
    modelled.  The one floating-point effect the code reacts to, the
    [OverflowError] of [math.exp], is kept: [math.exp x] overflows when the
    exact result exceeds the largest finite double. *)

From Stdlib Require Import Reals Lra Lia List String Bool ZArith DecimalString.
From Stdlib Require DecimalNat.
Import ListNotations.
Open Scope R_scope.

(** ** Numeric helpers *)

Definition Rltb (x y : R) : bool := if Rlt_dec x y then true else false.
Definition Rleb (x y : R) : bool := if Rle_dec x y then true else false.

(** Largest finite IEEE-754 double, [(2^53 - 1) * 2^971]. *)
Definition max_float : R := IZR ((2 ^ 53 - 1) * 2 ^ 971)%Z.

(** [math.exp x] raises [OverflowError] when [exp x] is not representable. *)
Definition exp_overflows (x : R) : bool := Rltb max_float (exp x).

(** Python float division [x / y]: [ZeroDivisionError] when [y = 0]. *)
Definition py_div (x y : R) : option R :=
  if Req_dec_T y 0 then None else Some (x / y).

(** ** ItemResponseTheory *)

Module ItemResponseTheory.

(** [probability_correct]: 3PL model; overflow of [math.exp] (and the
    unreachable [ZeroDivisionError], since [1 + exp e > 0]) return [0.5]. *)
Definition probability_correct (ability difficulty discrimination guessing : R) : R :=
  let exponent := - discrimination * (ability - difficulty) in
  if exp_overflows exponent then 0.5
  else guessing + (1 - guessing) / (1 + exp exponent).

(** [information_function]: the bare [except] turns any division by zero
    into [0.0]. *)
Definition information_function (ability difficulty discrimination guessing : R) : R :=
  let p := probability_correct ability difficulty discrimination guessing in
  let q := 1 - p in
  if Rleb p guessing || Rleb 1 p || Rleb q 0 then 0
  else match py_div (discrimination * p * q) (1 - guessing) with
       | None => 0
       | Some derivative_p =>
           match py_div (derivative_p ^ 2) (p * q) with
           | None => 0
           | Some i => i
           end
       end.

(** A recorded response, as the code stores it:
    [(difficulty, correct, discrimination)]. *)
Definition Response : Type := (R * bool * R)%type.

(** Inner loop of one Newton-Raphson iteration: accumulates the first and
    second derivatives, [probability_correct] called with its default
    [guessing = 0.0]. *)
Fixpoint accumulate (ability : R) (rs : list Response)
         (likelihood_derivative second_derivative : R) : R * R :=
  match rs with
  | [] => (likelihood_derivative, second_derivative)
  | (difficulty, correct, discrimination) :: rs' =>
      let p := probability_correct ability difficulty discrimination 0 in
      let q := 1 - p in
      if Rltb 0.001 p && Rltb 0.001 q then
        if correct then
          accumulate ability rs' (likelihood_derivative + discrimination * q)
                     (second_derivative - discrimination * discrimination * p * q)
        else
          accumulate ability rs' (likelihood_derivative - discrimination * p)
                     (second_derivative - discrimination * discrimination * p * q)
      else accumulate ability rs' likelihood_derivative second_derivative
  end.

(** [for iteration in range(fuel)]: the Newton-Raphson loop. *)
Fixpoint newton_raphson (fuel : nat) (ability : R) (rs : list Response) : R :=
  match fuel with
  | O => ability
  | S fuel' =>
      let (likelihood_derivative, second_derivative) := accumulate ability rs 0 0 in
      if Rltb 0.001 (Rabs second_derivative) then
        let delta := likelihood_derivative / second_derivative in
        let ability' := ability - delta in
        if Rltb (Rabs delta) 0.001 then ability'
        else newton_raphson fuel' ability' rs
      else ability
  end.

(** [sum(information_function(ability, d, a) for d, _, a in responses)]. *)
Definition total_information (ability : R) (rs : list Response) : R :=
  fold_left (fun acc '(difficulty, _, discrimination) =>
               acc + information_function ability difficulty discrimination 0)
            rs 0.

Definition estimate_ability (rs : list Response) (initial_ability : R) : R * R :=
  match rs with
  | [] => (initial_ability, 2)
  | _ =>
      let ability := newton_raphson 10 initial_ability rs in
      let information := total_information ability rs in
      let standard_error := if Rltb 0 information then 1 / sqrt information else 2 in
      (ability, standard_error)
  end.

End ItemResponseTheory.

(** ** QuestionItem *)

Module QuestionItem.

Record t := mk {
  item_id : string;
  content : string;
  options : list string;
  correct_answer : Z;
  difficulty : R;
  discrimination : R;
  guessing : R;
  subject : string;
  topic : string;
  times_used : nat;
  times_correct : nat;
  avg_response_time : R
}.

(** The constructor: usage statistics start at [0], [0], [0.0]. *)
Definition new (item_id content : string) (options : list string) (correct_answer : Z)
    (difficulty discrimination guessing : R) (subject topic : string) : t :=
  mk item_id content options correct_answer difficulty discrimination guessing
     subject topic 0 0 0.

Definition update_statistics (q : t) (correct : bool) (response_time : R) : t :=
  let times_used' := S (times_used q) in
  let times_correct' := if correct then S (times_correct q) else times_correct q in
  let avg' :=
    if Nat.eqb times_used' 1 then response_time
    else (avg_response_time q * INR (times_used' - 1) + response_time) / INR times_used' in
  mk (item_id q) (content q) (options q) (correct_answer q) (difficulty q)
     (discrimination q) (guessing q) (subject q) (topic q)
     times_used' times_correct' avg'.

End QuestionItem.

(** ** Assessment session (the dict stored in [active_assessments]) *)

Module Session.

Record t := mk {
  assessment_id : string;
  user_id : string;
  subject : string;
  start_time : Z;
  end_time : option Z;
  current_ability : R;
  standard_error : R;
  responses : list ItemResponseTheory.Response;
  questions_asked : list string;
  current_question_index : nat;
  is_complete : bool
}.

Definition set_questions_asked (s : t) (asked : list string) (index : nat) : t :=
  mk (assessment_id s) (user_id s) (subject s) (start_time s) (end_time s)
     (current_ability s) (standard_error s) (responses s) asked index (is_complete s).

Definition set_responses (s : t) (rs : list ItemResponseTheory.Response) : t :=
  mk (assessment_id s) (user_id s) (subject s) (start_time s) (end_time s)
     (current_ability s) (standard_error s) rs (questions_asked s)
     (current_question_index s) (is_complete s).

Definition set_estimate (s : t) (ability se : R) : t :=
  mk (assessment_id s) (user_id s) (subject s) (start_time s) (end_time s)
     ability se (responses s) (questions_asked s)
     (current_question_index s) (is_complete s).

Definition set_complete (s : t) (now : Z) : t :=
  mk (assessment_id s) (user_id s) (subject s) (start_time s) (Some now)
     (current_ability s) (standard_error s) (responses s) (questions_asked s)
     (current_question_index s) true.

End Session.

(** ** Python dicts with string keys, in insertion order *)

Fixpoint dict_get {V} (k : string) (d : list (string * V)) : option V :=
  match d with
  | [] => None
  | (k', v) :: d' => if String.eqb k k' then Some v else dict_get k d'
  end.

(** [d[k] = v]: overwrites in place when [k] is present, appends otherwise. *)
Fixpoint dict_set {V} (k : string) (v : V) (d : list (string * V)) : list (string * V) :=
  match d with
  | [] => [(k, v)]
  | (k', v') :: d' => if String.eqb k k' then (k', v) :: d' else (k', v') :: dict_set k v d'
  end.

(** ** Engine state and its state/exception monad

    A Python method mutates [self] in place, and the mutations made before an
    exception is raised stay: a computation returns the final state together
    with either a value or the exception. *)

Record Engine := mkEngine {
  min_questions : nat;
  max_questions : nat;
  precision_threshold : R;
  question_pools : list (string * list QuestionItem.t);
  active_assessments : list (string * Session.t)
}.

Inductive Exc :=
| ValueError (msg : string)
| KeyError (key : string).

Inductive Outcome (A : Type) :=
| Ret (a : A)
| Raise (e : Exc).
Arguments Ret {A} a.
Arguments Raise {A} e.

Definition M (A : Type) : Type := Engine -> Engine * Outcome A.

Definition ret {A} (a : A) : M A := fun st => (st, Ret a).
Definition raise {A} (e : Exc) : M A := fun st => (st, Raise e).
Definition bind {A B} (m : M A) (k : A -> M B) : M B :=
  fun st => match m st with
            | (st', Ret a) => k a st'
            | (st', Raise e) => (st', Raise e)
            end.
Definition get : M Engine := fun st => (st, Ret st).
Definition put (st : Engine) : M unit := fun _ => (st, Ret tt).

Notation "x <- m ;; k" := (bind m (fun x => k))
  (at level 61, m at next level, right associativity).
Notation "m ;;; k" := (bind m (fun _ => k))
  (at level 61, right associativity).

(** ** AdaptiveAssessmentEngine *)

Module AdaptiveAssessmentEngine.
Import ItemResponseTheory.
Local Open Scope string_scope.

(** [__init__]: the CAT parameters and empty tables. *)
Definition init : Engine := mkEngine 5 30 0.3 [] [].

Definition set_pools (st : Engine) (pools : list (string * list QuestionItem.t)) : Engine :=
  mkEngine (min_questions st) (max_questions st) (precision_threshold st)
           pools (active_assessments st).

Definition set_sessions (st : Engine) (sessions : list (string * Session.t)) : Engine :=
  mkEngine (min_questions st) (max_questions st) (precision_threshold st)
           (question_pools st) sessions.

(** [session = self.active_assessments.get(assessment_id)]. *)
Definition get_session (assessment_id : string) : M (option Session.t) :=
  st <- get ;; ret (dict_get assessment_id (active_assessments st)).

(** Writes the (mutated) session dict back under its id. *)
Definition put_session (assessment_id : string) (s : Session.t) : M unit :=
  st <- get ;;
  put (set_sessions st (dict_set assessment_id s (active_assessments st))).

(** [self.question_pools[subject]]: [KeyError] when absent. *)
Definition get_pool (subject : string) : M (list QuestionItem.t) :=
  st <- get ;;
  match dict_get subject (question_pools st) with
  | Some pool => ret pool
  | None => raise (KeyError subject)
  end.

(** The question objects are shared with the pool: mutating the question
    found by [for q in pool: ... break] is mutating the first item of the pool
    with that id. *)
Fixpoint replace_first (question_id : string) (q' : QuestionItem.t)
         (pool : list QuestionItem.t) : list QuestionItem.t :=
  match pool with
  | [] => []
  | q :: pool' =>
      if String.eqb (QuestionItem.item_id q) question_id then q' :: pool'
      else q :: replace_first question_id q' pool'
  end.

Definition put_question (subject question_id : string) (q' : QuestionItem.t) : M unit :=
  pool <- get_pool subject ;;
  st <- get ;;
  put (set_pools st (dict_set subject (replace_first question_id q' pool)
                              (question_pools st))).

(** ** _select_next_question *)

Definition question_information (ability : R) (q : QuestionItem.t) : R :=
  information_function ability (QuestionItem.difficulty q)
    (QuestionItem.discrimination q) (QuestionItem.guessing q).

(** The selection loop: [if information > max_information]. *)
Fixpoint select_best (ability : R) (qs : list QuestionItem.t)
         (best_question : option QuestionItem.t) (max_information : R)
         : option QuestionItem.t :=
  match qs with
  | [] => best_question
  | q :: qs' =>
      let information := question_information ability q in
      if Rltb max_information information
      then select_best ability qs' (Some q) information
      else select_best ability qs' best_question max_information
  end.

Definition available_questions (pool : list QuestionItem.t) (asked : list string)
    : list QuestionItem.t :=
  filter (fun q => negb (existsb (String.eqb (QuestionItem.item_id q)) asked)) pool.

(** Returns [(question_number, question)]. *)
Definition _select_next_question (assessment_id : string) : M (nat * QuestionItem.t) :=
  o <- get_session assessment_id ;;
  match o with
  | None => raise (ValueError "Assessment session not found")
  | Some session =>
      pool <- get_pool (Session.subject session) ;;
      let available := available_questions pool (Session.questions_asked session) in
      match available with
      | [] => raise (ValueError "No more questions available")
      | first :: _ =>
          let best_question :=
            match select_best (Session.current_ability session) available None 0 with
            | Some q => q
            | None => first
            end in
          let index := S (Session.current_question_index session) in
          put_session assessment_id
            (Session.set_questions_asked session
               (Session.questions_asked session ++ [QuestionItem.item_id best_question])
               index) ;;;
          ret (index, best_question)
      end
  end.

(** ** _should_continue_assessment *)

Definition _should_continue_assessment (st : Engine) (session : Session.t) : bool :=
  let questions_answered := List.length (Session.responses session) in
  if Nat.ltb questions_answered (min_questions st) then true
  else if Nat.leb (max_questions st) questions_answered then false
  else if Rleb (Session.standard_error session) (precision_threshold st) then false
  else true.

(** ** _complete_assessment *)

Definition _complete_assessment (assessment_id : string) (now : Z) : M unit :=
  o <- get_session assessment_id ;;
  match o with
  | None => ret tt
  | Some session => put_session assessment_id (Session.set_complete session now)
  end.

(** ** _generate_assessment_report *)

Module Report.
Record t := mk {
  assessment_id : string;
  subject : string;
  final_ability_estimate : R;
  precision : R;
  proficiency_level : string;
  total_questions : nat;
  correct_answers : nat;
  accuracy_percentage : R;
  (** topic -> (correct, total), in insertion order *)
  topic_breakdown : list (string * (nat * nat));
  recommendations : list string
}.
End Report.

(** [{}] for an unknown session, the [{"error": ...}] dict when the body
    raised, the report otherwise. *)
Inductive ReportResult :=
| ReportEmpty
| ReportError
| ReportOk (r : Report.t).

Definition count_correct (rs : list Response) : nat :=
  List.length (filter (fun '(_, correct, _) => correct) rs).

(** The per-topic loop: [session["questions_asked"][i]] raises [IndexError]
    (here [None]) when the list is shorter than [responses]; the pool lookup
    raises [KeyError] (here [pool = None]) as soon as the loop body runs. *)
Fixpoint topic_loop (pool : option (list QuestionItem.t)) (asked : list string)
         (rs : list Response) (i : nat) (acc : list (string * (nat * nat)))
         : option (list (string * (nat * nat))) :=
  match rs with
  | [] => Some acc
  | (_, correct, _) :: rs' =>
      match nth_error asked i, pool with
      | Some question_id, Some qs =>
          let acc' :=
            match find (fun q => String.eqb (QuestionItem.item_id q) question_id) qs with
            | None => acc
            | Some q =>
                let topic := QuestionItem.topic q in
                let '(c, t) := match dict_get topic acc with
                               | Some ct => ct
                               | None => (0%nat, 0%nat)
                               end in
                dict_set topic (if correct then S c else c, S t) acc
            end in
          topic_loop pool asked rs' (S i) acc'
      | _, _ => None
      end
  end.

Definition _generate_learning_recommendations (session : Session.t) : list string :=
  let ability := Session.current_ability session in
  let rs := Session.responses session in
  match py_div (INR (count_correct rs)) (INR (List.length rs)) with
  | None => ["Continue learning and practicing regularly"]
  | Some accuracy =>
      (if Rltb ability (-1) then
         ["Start with foundational concepts and basic exercises";
          "Take time to master fundamentals before advancing";
          "Use visual aids and simple examples for better understanding"]
       else if Rltb ability 0.5 then
         ["Practice intermediate-level problems to solidify understanding";
          "Explore real-world applications of concepts";
          "Connect new learning to previously mastered topics"]
       else
         ["Challenge yourself with advanced problems and projects";
          "Explore cutting-edge developments in the field";
          "Consider mentoring others to reinforce your knowledge"])
      ++ (if Rltb accuracy 0.7
          then ["Focus on areas where you had difficulty - review and practice more"]
          else [])
  end.

Definition proficiency_level (ability : R) : string :=
  if Rltb ability (-1.5) then "Beginner"
  else if Rltb ability 0.5 then "Intermediate"
  else "Advanced".

(** The report body; [None] when it raises ([ZeroDivisionError],
    [IndexError], [KeyError]).  The level description and the timestamps of
    the report are left out. *)
Definition report_body (st : Engine) (assessment_id : string) (session : Session.t)
    : option Report.t :=
  let rs := Session.responses session in
  let total_questions := List.length rs in
  let correct_answers := count_correct rs in
  let ability := Session.current_ability session in
  match topic_loop (dict_get (Session.subject session) (question_pools st))
                   (Session.questions_asked session) rs 0 [] with
  | None => None
  | Some topic_performance =>
      match py_div 1 (Session.standard_error session) with
      | None => None
      | Some precision =>
          match py_div (INR correct_answers) (INR total_questions) with
          | None => None
          | Some accuracy =>
              Some (Report.mk assessment_id (Session.subject session) ability precision
                      (proficiency_level ability) total_questions correct_answers
                      (accuracy * 100) topic_performance
                      (_generate_learning_recommendations session))
          end
      end
  end.

Definition _generate_assessment_report (assessment_id : string) : M ReportResult :=
  st <- get ;;
  match dict_get assessment_id (active_assessments st) with
  | None => ret ReportEmpty
  | Some session =>
      match report_body st assessment_id session with
      | None => ret ReportError
      | Some r => ret (ReportOk r)
      end
  end.

(** ** submit_answer *)

Inductive NextStep :=
| NextQuestion (question_number : nat) (question : QuestionItem.t)
| FinalResults (final_results : ReportResult).

Module SubmitResponse.
Record t := mk {
  correct : bool;
  correct_answer : Z;
  current_ability_estimate : R;
  precision : R;
  questions_completed : nat;
  next_step : NextStep
}.
End SubmitResponse.

(** [if response_time:] is false for [None] and for [0.0]. *)
Definition truthy (response_time : option R) : option R :=
  match response_time with
  | Some t => if Req_dec_T t 0 then None else Some t
  | None => None
  end.

Definition find_question (question_id : string) (pool : list QuestionItem.t)
    : option QuestionItem.t :=
  find (fun q => String.eqb (QuestionItem.item_id q) question_id) pool.

Definition submit_answer (assessment_id question_id : string) (selected_answer : Z)
    (response_time : option R) (now : Z) : M SubmitResponse.t :=
  o <- get_session assessment_id ;;
  match o with
  | None => raise (ValueError "Assessment session not found")
  | Some session =>
    if Session.is_complete session then raise (ValueError "Assessment already completed")
    else
    pool <- get_pool (Session.subject session) ;;
    match find_question question_id pool with
    | None => raise (ValueError "Question not found")
    | Some question =>
      let is_correct := Z.eqb selected_answer (QuestionItem.correct_answer question) in
      match truthy response_time with
      | Some t => put_question (Session.subject session) question_id
                    (QuestionItem.update_statistics question is_correct t)
      | None => ret tt
      end ;;;
      let response_data := (QuestionItem.difficulty question, is_correct,
                            QuestionItem.discrimination question) in
      let session1 := Session.set_responses session
                        (Session.responses session ++ [response_data]) in
      let (new_ability, standard_error) :=
        estimate_ability (Session.responses session1) (Session.current_ability session1) in
      let session2 := Session.set_estimate session1 new_ability standard_error in
      put_session assessment_id session2 ;;;
      st <- get ;;
      let should_continue := _should_continue_assessment st session2 in
      let precision := if Rltb 0 standard_error then 1 / standard_error else 0 in
      let respond := SubmitResponse.mk is_correct (QuestionItem.correct_answer question)
                       new_ability precision
                       (List.length (Session.responses session2)) in
      if should_continue then
        next_question <- _select_next_question assessment_id ;;
        ret (respond (NextQuestion (fst next_question) (snd next_question)))
      else
        _complete_assessment assessment_id now ;;;
        final_results <- _generate_assessment_report assessment_id ;;
        ret (respond (FinalResults final_results))
    end
  end.

(** ** create_adaptive_assessment *)

(** The parts of [user_context] the engine reads:
    [previous_assessments[subject]["final_ability"]] and
    [difficulty_preference]. *)
Record UserContext := mkUserContext {
  previous_assessments : list (string * option R);
  difficulty_preference : option string
}.

Definition _get_starting_ability (subject : string) (user_context : UserContext) : R :=
  match dict_get subject (previous_assessments user_context) with
  | Some (Some previous_ability) => previous_ability
  | _ =>
      let difficulty_pref :=
        match difficulty_preference user_context with
        | Some d => d
        | None => "intermediate"
        end in
      match dict_get difficulty_pref
              [("beginner", -1); ("intermediate", 0); ("advanced", 1)] with
      | Some a => a
      | None => 0
      end
  end.

(** [timestamp] is [str(int(datetime.utcnow().timestamp()))], [now] the
    start time.  Returns [(assessment_id, subject, first_question)]. *)
Definition create_adaptive_assessment (user_id subject : string)
    (user_context : UserContext) (timestamp : string) (now : Z)
    : M (string * string * (nat * QuestionItem.t)) :=
  st <- get ;;
  subject <- match dict_get subject (question_pools st) with
             | Some _ => ret subject
             | None =>
                 match question_pools st with
                 | (first_subject, _) :: _ => ret first_subject
                 | [] => raise (ValueError "No question pools available")
                 end
             end ;;
  let assessment_id := String.append "assessment_"
                         (String.append user_id (String.append "_" timestamp)) in
  let starting_ability := _get_starting_ability subject user_context in
  let assessment_session :=
    Session.mk assessment_id user_id subject now None starting_ability 2 [] [] 0 false in
  put_session assessment_id assessment_session ;;;
  first_question <- _select_next_question assessment_id ;;
  ret (assessment_id, subject, first_question).

End AdaptiveAssessmentEngine.

(** ** Engine set-up, status and health *)

Module Lifecycle.
Import ItemResponseTheory AdaptiveAssessmentEngine.
Local Open Scope string_scope.

(** [_calibrate_items]: the discrimination of every item of every pool is
    clamped, in place, into [[0.5, 3.0]]. *)
Definition calibrate_discrimination (discrimination : R) : R :=
  if Rltb discrimination 0.5 then 0.5
  else if Rltb 3 discrimination then 3
  else discrimination.

Definition calibrate_item (q : QuestionItem.t) : QuestionItem.t :=
  QuestionItem.mk (QuestionItem.item_id q) (QuestionItem.content q) (QuestionItem.options q)
    (QuestionItem.correct_answer q) (QuestionItem.difficulty q)
    (calibrate_discrimination (QuestionItem.discrimination q)) (QuestionItem.guessing q)
    (QuestionItem.subject q) (QuestionItem.topic q) (QuestionItem.times_used q)
    (QuestionItem.times_correct q) (QuestionItem.avg_response_time q).

Definition _calibrate_items (st : Engine) : Engine :=
  set_pools st (map (fun '(subject, questions) => (subject, map calibrate_item questions))
                    (question_pools st)).

(** One entry of [questions_data] in [_create_sample_questions]. *)
Record QuestionData := mkQuestionData {
  qd_content : string;
  qd_options : list string;
  qd_correct : Z;
  qd_difficulty : R;
  qd_topic : string
}.

Definition questions_data (subject : string) : list QuestionData :=
  if String.eqb subject "python_programming" then
    [mkQuestionData "What is the output of: print(type([]))"
       ["<class 'list'>"; "<class 'dict'>"; "<class 'tuple'>"; "<class 'set'>"] 0 (-1.5)
       "data_types";
     mkQuestionData "Which method adds an element to the end of a list?"
       ["add()"; "append()"; "insert()"; "extend()"] 1 (-0.5) "lists";
     mkQuestionData "What is the difference between '==' and 'is' operators?"
       ["No difference"; "'==' compares values, 'is' compares identity";
        "'is' compares values, '==' compares identity"; "Both compare identity"] 1 0.8
       "operators";
     mkQuestionData "What will 'list(zip([1,2], [3,4,5]))' return?"
       ["[(1, 3), (2, 4)]"; "[(1, 3), (2, 4), (5,)]"; "[1, 2, 3, 4, 5]"; "Error"] 0 1.2
       "functions";
     mkQuestionData "How do you create a generator function in Python?"
       ["Use 'return'"; "Use 'yield'"; "Use 'generate'"; "Use 'iterator'"] 1 1.8
       "generators"]
  else if String.eqb subject "mathematics" then
    [mkQuestionData "What is 15% of 80?" ["10"; "12"; "15"; "20"] 1 (-1) "percentages";
     mkQuestionData "Solve for x: 2x + 5 = 13" ["x = 3"; "x = 4"; "x = 6"; "x = 9"] 1 0
       "algebra";
     mkQuestionData "What is the derivative of x²?" ["x"; "2x"; "x³"; "2x²"] 1 0.8
       "calculus"]
  else if String.eqb subject "machine_learning" then
    [mkQuestionData "What is supervised learning?"
       ["Learning without labeled data"; "Learning with labeled training data";
        "Learning through trial and error"; "Learning without any data"] 1 (-0.5)
       "fundamentals";
     mkQuestionData "What is overfitting in machine learning?"
       ["Model performs well on all data"; "Model performs poorly on training data";
        "Model performs well on training but poorly on test data";
        "Model has too few parameters"] 2 0.5 "model_evaluation"]
  else
    [mkQuestionData ("Sample question for " ++ subject)
       ["Option A"; "Option B"; "Option C"; "Option D"] 0 0 "general"].

(** [str(n)] for a natural number. *)
Definition string_of_nat (n : nat) : string := NilEmpty.string_of_uint (Nat.to_uint n).

(** [random.uniform(0.8, 2.0)]: the [n]-th value drawn from the generator
    is [uniform n]. *)
Fixpoint build_questions (subject : string) (uniform : nat -> R) (draw i : nat)
         (data : list QuestionData) : list QuestionItem.t :=
  match data with
  | [] => []
  | d :: data' =>
      QuestionItem.new (subject ++ "_" ++ string_of_nat (S i)) (qd_content d) (qd_options d)
        (qd_correct d) (qd_difficulty d) (uniform draw) 0.1 subject (qd_topic d)
      :: build_questions subject uniform (S draw) (S i) data'
  end.

(** Returns the questions and the number of values drawn so far. *)
Definition _create_sample_questions (subject : string) (uniform : nat -> R) (draw : nat)
    : list QuestionItem.t * nat :=
  let data := questions_data subject in
  (build_questions subject uniform draw 0 data, (draw + List.length data)%nat).

Definition subjects : list string :=
  ["mathematics"; "python_programming"; "machine_learning"; "data_science"].

Fixpoint load_subjects (uniform : nat -> R) (draw : nat) (subjects : list string)
         (st : Engine) : Engine :=
  match subjects with
  | [] => st
  | subject :: subjects' =>
      let (questions, draw') := _create_sample_questions subject uniform draw in
      load_subjects uniform draw' subjects'
        (set_pools st (dict_set subject questions (question_pools st)))
  end.

Definition _load_question_pools (uniform : nat -> R) (st : Engine) : Engine :=
  load_subjects uniform 0 subjects st.

(** The engine object with its [is_initialized] flag. *)
Record Service := mkService {
  is_initialized : bool;
  engine : Engine
}.

(** [AdaptiveAssessmentEngine()]. *)
Definition new_service : Service := mkService false init.

Definition initialize (uniform : nat -> R) (sv : Service) : Service :=
  mkService true (_calibrate_items (_load_question_pools uniform (engine sv))).

Definition is_healthy (sv : Service) : bool :=
  is_initialized sv && Nat.ltb 0 (List.length (question_pools (engine sv))).

(** [get_assessment_status]. *)
Record Status := mkStatus {
  status_assessment_id : string;
  status_is_complete : bool;
  questions_completed : nat;
  current_ability_estimate : R;
  status_precision : R;
  estimated_remaining : nat
}.

Definition get_assessment_status (assessment_id : string) (st : Engine) : option Status :=
  match dict_get assessment_id (active_assessments st) with
  | None => None
  | Some session =>
      let answered := List.length (Session.responses session) in
      Some (mkStatus assessment_id (Session.is_complete session) answered
              (Session.current_ability session)
              (if Rltb 0 (Session.standard_error session)
               then 1 / Session.standard_error session else 0)
              (min_questions st - answered))
  end.

End Lifecycle.

(** * Reference estimator, following the spec's description

    Newton-Raphson from [initial_ability] for at most 10 iterations; each
    iteration sums the first and second log-likelihood derivatives of the
    (2PL, [guessing = 0]) responses selected by [keep]; it stops without
    update when [|second| <= 0.001] and after the update when
    [|step| < 0.001]; the standard error is [1/sqrt] of the total information,
    or [2.0] when that total is not positive; no responses give
    [(initial_ability, 2.0)]. *)

Module Reference.
Import ItemResponseTheory.

Definition list_sum (xs : list R) : R := fold_right Rplus 0 xs.

Definition response_probability (ability : R) (r : Response) : R :=
  let '(difficulty, _, discrimination) := r in
  probability_correct ability difficulty discrimination 0.

(** [d/dtheta log L] of one response: [a (u - P)]. *)
Definition first_term (ability : R) (r : Response) : R :=
  let '(_, correct, discrimination) := r in
  let p := response_probability ability r in
  if correct then discrimination * (1 - p) else - (discrimination * p).

(** [d^2/dtheta^2 log L] of one response: [- a^2 P Q]. *)
Definition second_term (ability : R) (r : Response) : R :=
  let '(_, _, discrimination) := r in
  let p := response_probability ability r in
  - (discrimination * discrimination * p * (1 - p)).

Section WithSelection.
Variable keep : R -> Response -> bool.

Definition derivatives (ability : R) (rs : list Response) : R * R :=
  let kept := filter (keep ability) rs in
  (list_sum (map (first_term ability) kept), list_sum (map (second_term ability) kept)).

Fixpoint newton (iterations : nat) (ability : R) (rs : list Response) : R :=
  match iterations with
  | O => ability
  | S n =>
      let d := derivatives ability rs in
      if Rleb (Rabs (snd d)) 0.001 then ability
      else
        let step := fst d / snd d in
        if Rltb (Rabs step) 0.001 then ability - step
        else newton n (ability - step) rs
  end.

Definition estimate_ability_reference (rs : list Response) (initial_ability : R) : R * R :=
  match rs with
  | [] => (initial_ability, 2)
  | _ =>
      let ability := newton 10 initial_ability rs in
      let total := list_sum (map (fun '(difficulty, _, discrimination) =>
                                    information_function ability difficulty discrimination 0)
                                 rs) in
      (ability, if Rltb 0 total then 1 / sqrt total else 2)
  end.
End WithSelection.

(** Every response enters the derivative sums. *)
Definition keep_all (_ : R) (_ : Response) : bool := true.

(** Only responses with [0.001 < P] and [0.001 < 1 - P] enter them. *)
Definition well_conditioned (ability : R) (r : Response) : bool :=
  let p := response_probability ability r in
  Rltb 0.001 p && Rltb 0.001 (1 - p).

End Reference.

(** * Fixtures and predicates used by the properties *)

Module Fixtures.
Import ItemResponseTheory AdaptiveAssessmentEngine.
Local Open Scope string_scope.

(** A concrete session of subject "mathematics", used by the examples. *)
Definition sample_response : Response := (0, true, 1).

Definition sample_session (rs : list Response) (asked : list string) (complete : bool)
    : Session.t :=
  Session.mk "assessment_u_0" "u" "mathematics" 0 None 0 2 rs asked
             (List.length asked) complete.


Definition sample_item (item_id : string) (difficulty : R) : QuestionItem.t :=
  QuestionItem.new item_id "question" ["A"; "B"] 1 difficulty 1 0.1 "mathematics" "algebra".

Definition is_ret {A} (o : Outcome A) : bool :=
  match o with Ret _ => true | Raise _ => false end.

(** The session after [submit_answer] recorded a response and re-estimated. *)
Definition answered_session (s : Session.t) (q : QuestionItem.t) (correct : bool) : Session.t :=
  let s1 := Session.set_responses s
              (Session.responses s ++ [(QuestionItem.difficulty q, correct,
                                        QuestionItem.discrimination q)]) in
  let e := estimate_ability (Session.responses s1) (Session.current_ability s1) in
  Session.set_estimate s1 (fst e) (snd e).

(** The engine after the usage statistics of [q] were (or were not) updated. *)
Definition statistics_state (st : Engine) (subject question_id : string)
    (pool : list QuestionItem.t) (q : QuestionItem.t) (correct : bool)
    (response_time : option R) : Engine :=
  match truthy response_time with
  | Some t => set_pools st (dict_set subject
                              (replace_first question_id
                                 (QuestionItem.update_statistics q correct t) pool)
                              (question_pools st))
  | None => st
  end.

Definition answered_state (st : Engine) (assessment_id question_id : string)
    (selected_answer : Z) (response_time : option R) (s : Session.t)
    (pool : list QuestionItem.t) (q : QuestionItem.t) : Engine :=
  let correct := Z.eqb selected_answer (QuestionItem.correct_answer q) in
  let st1 := statistics_state st (Session.subject s) question_id pool q correct response_time in
  set_sessions st1 (dict_set assessment_id (answered_session s q correct)
                             (active_assessments st1)).

Definition apply_updates (q : QuestionItem.t) (us : list (bool * R)) : QuestionItem.t :=
  fold_left (fun q '(correct, t) => QuestionItem.update_statistics q correct t) us q.

Definition count_true (us : list (bool * R)) : nat :=
  List.length (filter fst us).

Definition sum_times (us : list (bool * R)) : R := fold_right Rplus 0 (map snd us).

(** An item of the bank, with its guessing parameter [c]. *)
Definition guessing_item (c : R) : QuestionItem.t :=
  QuestionItem.new "mathematics_1" "question" ["A"; "B"] 1 0 1 c "mathematics" "algebra".

Definition guessing_state (c : R) : Engine :=
  mkEngine 5 30 0.3 [("mathematics", [guessing_item c])]
           [("assessment_u_0", sample_session [] ["mathematics_1"] false)].

Definition session_after_answer (c : R) : option (list Response * R * R) :=
  option_map (fun s => (Session.responses s, Session.current_ability s,
                        Session.standard_error s))
    (dict_get "assessment_u_0"
       (active_assessments (fst (submit_answer "assessment_u_0" "mathematics_1" 1 None 0
                                   (guessing_state c))))).

(** [P] holds of every session visible in [active_assessments]. *)
Definition all_sessions (P : Session.t -> Prop) (st : Engine) : Prop :=
  forall k s, dict_get k (active_assessments st) = Some s -> P s.

Definition se_positive (s : Session.t) : Prop := 0 < Session.standard_error s.

(** An active session has asked one item more than it has responses (the
    item on screen); a completed one as many. *)
Definition asked_balance (s : Session.t) : Prop :=
  List.length (Session.questions_asked s)
  = (List.length (Session.responses s) + if Session.is_complete s then 0 else 1)%nat.

(** The subject [create_adaptive_assessment] settles on: the requested one
    when it has a pool, else the first pool's subject. *)
Definition chosen_subject (st : Engine) (subject : string) : option string :=
  match dict_get subject (question_pools st) with
  | Some _ => Some subject
  | None =>
      match question_pools st with
      | (first_subject, _) :: _ => Some first_subject
      | [] => None
      end
  end.

Definition new_assessment_id (user_id timestamp : string) : string :=
  String.append "assessment_" (String.append user_id (String.append "_" timestamp)).

(** The session dict [create_adaptive_assessment] stores. *)
Definition fresh_session (assessment_id user_id subject : string) (now : Z) (ability : R)
    : Session.t :=
  Session.mk assessment_id user_id subject now None ability 2 [] [] 0 false.

(** No item id occurs twice in [questions_asked]. *)
Definition asked_distinct (s : Session.t) : Prop := NoDup (Session.questions_asked s).

(** [max(min_questions, max_questions)]. *)
Definition question_bound (st : Engine) : nat := Nat.max (min_questions st) (max_questions st).

(** At most [bound] responses, and fewer while the session is active. *)
Definition responses_bounded (bound : nat) (s : Session.t) : Prop :=
  if Session.is_complete s then (List.length (Session.responses s) <= bound)%nat
  else (List.length (Session.responses s) < bound)%nat.

(** The CAT parameters of [st'] are those of [st]. *)
Definition same_parameters (st st' : Engine) : Prop :=
  min_questions st' = min_questions st /\ max_questions st' = max_questions st /\
  precision_threshold st' = precision_threshold st.

(** An item with its usage statistics reset: the fields a pool update must
    not touch. *)
Definition strip_statistics (q : QuestionItem.t) : QuestionItem.t :=
  QuestionItem.mk (QuestionItem.item_id q) (QuestionItem.content q) (QuestionItem.options q)
    (QuestionItem.correct_answer q) (QuestionItem.difficulty q)
    (QuestionItem.discrimination q) (QuestionItem.guessing q)
    (QuestionItem.subject q) (QuestionItem.topic q) 0 0 0.

Definition pool_contents (st : Engine) : list (string * list QuestionItem.t) :=
  map (fun '(subject, pool) => (subject, map strip_statistics pool)) (question_pools st).

Definition statistics_consistent (q : QuestionItem.t) : Prop :=
  (QuestionItem.times_correct q <= QuestionItem.times_used q)%nat.

Definition all_items (P : QuestionItem.t -> Prop) (st : Engine) : Prop :=
  forall subject pool q, dict_get subject (question_pools st) = Some pool -> In q pool -> P q.

(** Sums of the totals and of the correct counts of a topic breakdown. *)
Definition topic_totals (tp : list (string * (nat * nat))) : nat :=
  fold_right (fun '(_, (_, t)) acc => (t + acc)%nat) 0%nat tp.

Definition topic_corrects (tp : list (string * (nat * nat))) : nat :=
  fold_right (fun '(_, (c, _)) acc => (c + acc)%nat) 0%nat tp.

(** Whether the response of [submit_answer] carries the final results. *)
Definition is_final (n : NextStep) : bool :=
  match n with
  | FinalResults _ => true
  | NextQuestion _ _ => false
  end.

End Fixtures.

(** * Properties *)

Module Properties.
Import ItemResponseTheory AdaptiveAssessmentEngine Fixtures.
Local Open Scope string_scope.

(** ** Facts about [exp] and the overflow bound *)

Lemma Rltb_true (x y : R) : Rltb x y = true <-> x < y.
Proof. unfold Rltb; destruct Rlt_dec; split; intros; auto; discriminate || contradiction. Qed.

Lemma Rltb_false (x y : R) : Rltb x y = false <-> y <= x.
Proof. unfold Rltb; destruct Rlt_dec; split; intros; try discriminate; lra. Qed.

Lemma Rleb_true (x y : R) : Rleb x y = true <-> x <= y.
Proof. unfold Rleb; destruct Rle_dec; split; intros; auto; discriminate || contradiction. Qed.

Lemma Rleb_false (x y : R) : Rleb x y = false <-> y < x.
Proof. unfold Rleb; destruct Rle_dec; split; intros; try discriminate; lra. Qed.

Lemma exp_le_mono (x y : R) : x <= y -> exp x <= exp y.
Proof.
  intros [H | ->]; [left; now apply exp_increasing | right; reflexivity].
Qed.

Lemma exp_INR_mult (n : nat) (x : R) : exp (INR n * x) = exp x ^ n.
Proof.
  induction n as [| n IH].
  - simpl; rewrite Rmult_0_l; apply exp_0.
  - rewrite S_INR, Rmult_plus_distr_r, Rmult_1_l, exp_plus, IH; simpl; ring.
Qed.

Lemma exp_1_bounds : 2 < exp 1 <= 3.
Proof.
  split; [| apply exp_le_3].
  pose proof (exp_ineq1 1 ltac:(lra)); lra.
Qed.

Lemma exp_overflows_false (x : R) : exp_overflows x = false <-> exp x <= max_float.
Proof. apply Rltb_false. Qed.

Lemma max_float_pos : 0 < max_float.
Proof. unfold max_float; apply IZR_lt; reflexivity. Qed.

(** [exp x] is representable for [x <= 20]. *)
Lemma exp_20_representable (x : R) : x <= 20 -> exp_overflows x = false.
Proof.
  intros Hx; apply exp_overflows_false.
  apply Rle_trans with (exp 20); [now apply exp_le_mono |].
  replace 20 with (INR 20 * 1) by (rewrite INR_IZR_INZ; simpl; ring).
  rewrite exp_INR_mult.
  apply Rle_trans with (3 ^ 20);
    [apply pow_incr; pose proof exp_1_bounds; lra |].
  unfold max_float; rewrite pow_IZR; apply IZR_le; vm_compute; discriminate.
Qed.

Lemma exp_2000_overflows : exp_overflows 2000 = true.
Proof.
  apply Rltb_true.
  replace 2000 with (INR 1000 * 2) by (rewrite INR_IZR_INZ; simpl; ring).
  rewrite exp_INR_mult.
  apply Rlt_le_trans with (3 ^ 1000).
  - unfold max_float; rewrite pow_IZR; apply IZR_lt; vm_compute; reflexivity.
  - apply pow_incr; split; [lra |].
    pose proof (exp_ineq1_le 2); lra.
Qed.

(** ** The 3PL probability *)

Lemma probability_correct_unfold (ability difficulty a c : R) :
  exp_overflows (- a * (ability - difficulty)) = false ->
  probability_correct ability difficulty a c
  = c + (1 - c) / (1 + exp (- a * (ability - difficulty))).
Proof. intros H; unfold probability_correct; cbv zeta; now rewrite H. Qed.

Lemma probability_correct_overflow (ability difficulty a c : R) :
  exp_overflows (- a * (ability - difficulty)) = true ->
  probability_correct ability difficulty a c = 0.5.
Proof. intros H; unfold probability_correct; cbv zeta; now rewrite H. Qed.

Lemma logistic_bounds (c e : R) : c < 1 -> c < c + (1 - c) / (1 + exp e) < 1.
Proof.
  intros Hc; pose proof (exp_pos e) as He.
  assert (0 < (1 - c) / (1 + exp e)) by (apply Rdiv_lt_0_compat; lra).
  assert ((1 - c) / (1 + exp e) < 1 - c).
  { apply Rmult_lt_reg_r with (1 + exp e); [lra |].
    unfold Rdiv; rewrite Rmult_assoc, Rinv_l by lra; nra. }
  lra.
Qed.

(** With [guessing = 0] the probability is strictly between 0 and 1,
    including the [0.5] fallback. *)
Lemma probability_correct_open (ability difficulty a : R) :
  0 < probability_correct ability difficulty a 0 < 1.
Proof.
  destruct (exp_overflows (- a * (ability - difficulty))) eqn:E.
  - rewrite probability_correct_overflow by exact E; lra.
  - rewrite probability_correct_unfold by exact E.
    pose proof (logistic_bounds 0 (- a * (ability - difficulty)) ltac:(lra)); lra.
Qed.

(** ** Fisher information *)

(** Outside the degenerate region, with [guessing >= 0], the information is
    [(a p q / (1 - c))^2 / (p q) >= 0]. *)
Lemma information_nonneg (ability difficulty a c : R) :
  0 <= c -> 0 <= information_function ability difficulty a c.
Proof.
  intros Hc; unfold information_function; cbv zeta.
  set (p := probability_correct ability difficulty a c).
  destruct (Rleb p c) eqn:E1; [simpl; lra |].
  destruct (Rleb 1 p) eqn:E2; [simpl; lra |].
  destruct (Rleb (1 - p) 0) eqn:E3; [simpl; lra |]; simpl.
  apply Rleb_false in E1, E2, E3.
  unfold py_div.
  destruct (Req_dec_T (1 - c) 0); [lra |].
  destruct (Req_dec_T (p * (1 - p)) 0); [lra |].
  unfold Rdiv; apply Rmult_le_pos; [apply pow2_ge_0 |].
  left; apply Rinv_0_lt_compat; nra.
Qed.

Lemma information_degenerate (ability difficulty a c : R) :
  let p := probability_correct ability difficulty a c in
  p <= c \/ 1 <= p \/ 1 - p <= 0 -> information_function ability difficulty a c = 0.
Proof.
  intros p Hd; unfold information_function; cbv zeta; fold p.
  destruct Hd as [H | [H | H]]; apply Rleb_true in H; rewrite H;
    destruct (Rleb p c), (Rleb 1 p), (Rleb (1 - p) 0); reflexivity.
Qed.

(** ** Stopping rule *)

(** C3 (amended): [_should_continue_assessment] checks the minimum-questions
    floor first: below [min_questions] it continues; from [min_questions] on,
    it stops at [max_questions] and otherwise stops exactly when
    [standard_error <= precision_threshold].  When [min_questions <=
    max_questions] (the defaults 5 and 30), a session whose precision is never
    reached is told to stop exactly once [max_questions] answers are in. *)
Theorem should_continue_rules (st : Engine) (s : Session.t) :
  let n := List.length (Session.responses s) in
  ((n < min_questions st)%nat -> _should_continue_assessment st s = true) /\
  ((min_questions st <= n)%nat -> (max_questions st <= n)%nat ->
     _should_continue_assessment st s = false) /\
  ((min_questions st <= n)%nat -> (n < max_questions st)%nat ->
     (_should_continue_assessment st s = false <->
      Session.standard_error s <= precision_threshold st)) /\
  ((min_questions st <= max_questions st)%nat ->
     precision_threshold st < Session.standard_error s ->
     (_should_continue_assessment st s = false <-> (max_questions st <= n)%nat)).
Proof.
  cbv zeta; unfold _should_continue_assessment.
  set (n := List.length (Session.responses s)).
  repeat split; intros.
  - apply Nat.ltb_lt in H; now rewrite H.
  - apply Nat.ltb_ge in H; apply Nat.leb_le in H0; now rewrite H, H0.
  - apply Nat.ltb_ge in H; apply Nat.leb_gt in H0; rewrite H, H0 in H1.
    unfold Rleb in H1; destruct Rle_dec; [assumption | discriminate].
  - apply Nat.ltb_ge in H; apply Nat.leb_gt in H0; rewrite H, H0.
    unfold Rleb; destruct Rle_dec; [reflexivity | contradiction].
  - destruct (Nat.ltb_spec n (min_questions st)); [discriminate|].
    destruct (Nat.leb_spec (max_questions st) n); [assumption|].
    unfold Rleb in H1; destruct Rle_dec; [lra | discriminate].
  - destruct (Nat.ltb_spec n (min_questions st)); [lia|].
    apply Nat.leb_le in H1; now rewrite H1.
Qed.

(** C3 counterexample: the claim lets the [max_questions] cap override the
    [min_questions] floor; with [min_questions = 5 > max_questions = 3] and four
    answers the code continues although [len(responses) >= max_questions]. *)
Lemma should_continue_min_before_max :
  let st := mkEngine 5 3 0.3 [] [] in
  let s := sample_session (repeat sample_response 4) [] false in
  (max_questions st <= List.length (Session.responses s))%nat /\
  _should_continue_assessment st s = true.
Proof. split; [cbn; lia | reflexivity]. Qed.

(** ** Completed sessions *)

(** C6: on a completed session [submit_answer] raises
    ["Assessment already completed"] and leaves the whole engine state,
    hence the session's responses, ability, standard error and asked ids,
    unchanged. *)
Theorem submit_answer_completed (st : Engine) (assessment_id question_id : string)
    (selected_answer : Z) (response_time : option R) (now : Z) (s : Session.t) :
  dict_get assessment_id (active_assessments st) = Some s ->
  Session.is_complete s = true ->
  submit_answer assessment_id question_id selected_answer response_time now st
  = (st, Raise (ValueError "Assessment already completed")).
Proof.
  intros Hs Hc.
  unfold submit_answer, get_session, bind, get, ret, raise; cbn.
  now rewrite Hs, Hc.
Qed.

Lemma submit_answer_completed_witness :
  let s := sample_session [sample_response] ["mathematics_1"] true in
  let st := mkEngine 5 30 0.3 [] [("assessment_u_0", s)] in
  (dict_get "assessment_u_0" (active_assessments st) = Some s /\
   Session.is_complete s = true) /\
  submit_answer "assessment_u_0" "mathematics_2" 1 (Some 3) 7 st
  = (st, Raise (ValueError "Assessment already completed")).
Proof.
  split; [split; reflexivity |].
  apply (submit_answer_completed _ _ _ _ _ _
           (sample_session [sample_response] ["mathematics_1"] true));
    reflexivity.
Defined.

(** ** The 3PL probability: range, monotonicity, overflow fallback *)

(** C4 (amended): for [discrimination >= 0] and [guessing] in [[0,1)]: where
    [math.exp] of the exponent is representable the probability lies in
    [[guessing, 1]] and does not decrease when the ability grows; where it
    overflows, the function returns [0.5] instead of raising. *)
Theorem probability_correct_properties (difficulty a c : R) :
  0 <= a -> 0 <= c < 1 ->
  (forall ability, exp_overflows (- a * (ability - difficulty)) = false ->
     c <= probability_correct ability difficulty a c <= 1) /\
  (forall ability1 ability2, ability1 <= ability2 ->
     exp_overflows (- a * (ability1 - difficulty)) = false ->
     probability_correct ability1 difficulty a c
     <= probability_correct ability2 difficulty a c) /\
  (forall ability, exp_overflows (- a * (ability - difficulty)) = true ->
     probability_correct ability difficulty a c = 0.5).
Proof.
  intros Ha Hc; split; [| split].
  - intros ability E; rewrite probability_correct_unfold by exact E.
    pose proof (logistic_bounds c (- a * (ability - difficulty)) ltac:(lra)); lra.
  - intros ability1 ability2 Hle E1.
    assert (He : - a * (ability2 - difficulty) <= - a * (ability1 - difficulty)) by nra.
    pose proof (exp_le_mono _ _ He) as Hexp.
    assert (E2 : exp_overflows (- a * (ability2 - difficulty)) = false).
    { apply exp_overflows_false; apply exp_overflows_false in E1; lra. }
    rewrite (probability_correct_unfold _ _ _ _ E1), (probability_correct_unfold _ _ _ _ E2).
    apply Rplus_le_compat_l; unfold Rdiv; apply Rmult_le_compat_l; [lra |].
    pose proof (exp_pos (- a * (ability2 - difficulty))).
    apply Rinv_le_contravar; lra.
  - intros ability E; now apply probability_correct_overflow.
Qed.

Lemma probability_correct_properties_witness :
  (0 <= 1 /\ 0 <= 0.1 < 1) /\
  ((forall ability, exp_overflows (- 1 * (ability - 0)) = false ->
      0.1 <= probability_correct ability 0 1 0.1 <= 1) /\
   (forall ability1 ability2, ability1 <= ability2 ->
      exp_overflows (- 1 * (ability1 - 0)) = false ->
      probability_correct ability1 0 1 0.1 <= probability_correct ability2 0 1 0.1) /\
   (forall ability, exp_overflows (- 1 * (ability - 0)) = true ->
      probability_correct ability 0 1 0.1 = 0.5)).
Proof.
  split; [lra |].
  apply (probability_correct_properties 0 1 0.1); lra.
Defined.

Lemma probability_correct_at_10 : probability_correct (-10) 0 1 0 < 0.5.
Proof.
  rewrite probability_correct_unfold by (apply exp_20_representable; lra).
  replace (- (1) * (-10 - 0)) with 10 by ring.
  pose proof (exp_increasing 0 10 ltac:(lra)); rewrite exp_0 in *.
  apply Rmult_lt_reg_r with (1 + exp 10); [lra |].
  unfold Rdiv; rewrite Rplus_0_l, Rmult_assoc, Rinv_l by lra; lra.
Qed.

Lemma probability_correct_at_2000 (c : R) : probability_correct (-2000) 0 1 c = 0.5.
Proof.
  apply probability_correct_overflow.
  replace (- (1) * (-2000 - 0)) with 2000 by ring; exact exp_2000_overflows.
Qed.

(** C4 counterexample: with [a = 1], [b = 0], [c = 0], the ability [-2000]
    overflows [math.exp] and gets [0.5], more than at the larger ability [-10];
    with [c = 0.9] the fallback [0.5] is below [guessing]. *)
Lemma probability_correct_fallback_breaks_claim :
  -2000 <= -10 /\
  probability_correct (-10) 0 1 0 < probability_correct (-2000) 0 1 0 /\
  probability_correct (-2000) 0 1 0.9 < 0.9.
Proof.
  rewrite !probability_correct_at_2000.
  pose proof probability_correct_at_10; lra.
Qed.

(** ** Fisher information *)

(** C5: [information_function] returns a number on every input, its
    divisions by zero being caught.  For every guessing parameter it returns
    exactly [0.0] when [P <= guessing], [P >= 1] or [Q <= 0]; for a guessing
    parameter [>= 0] (the spec's range [[0, 1)], and the values [0] and [0.1]
    the engine passes) its value is [>= 0]. *)
Theorem information_function_properties (ability difficulty a c : R) :
  (0 <= c -> 0 <= information_function ability difficulty a c) /\
  (let p := probability_correct ability difficulty a c in
   p <= c \/ 1 <= p \/ 1 - p <= 0 -> information_function ability difficulty a c = 0).
Proof.
  split; [apply information_nonneg | apply information_degenerate].
Qed.

Lemma information_function_properties_witness :
  0 <= 0.1 /\ 0 <= information_function 0 0 1 0.1 /\
  (let p := probability_correct 0 0 1 0.1 in
   p <= 0.1 \/ 1 <= p \/ 1 - p <= 0 -> information_function 0 0 1 0.1 = 0).
Proof.
  split; [lra |].
  destruct (information_function_properties 0 0 1 0.1) as [H1 H2].
  split; [apply H1; lra | exact H2].
Defined.

(** ** Item selection *)

Section Selection.
Variable f : QuestionItem.t -> R.



End Selection.






(** ** The state after each engine operation *)

Lemma complete_assessment_ret (assessment_id : string) (now : Z) (st : Engine) :
  _complete_assessment assessment_id now st
  = (fst (_complete_assessment assessment_id now st), Ret tt).
Proof.
  unfold _complete_assessment, get_session, put_session, bind, get, put, ret; cbn.
  destruct (dict_get assessment_id (active_assessments st)); reflexivity.
Qed.

Lemma generate_assessment_report_state (assessment_id : string) (st : Engine) :
  exists r, _generate_assessment_report assessment_id st = (st, Ret r).
Proof.
  unfold _generate_assessment_report, bind, get, ret; cbn.
  destruct (dict_get assessment_id (active_assessments st));
    [destruct report_body |]; eexists; reflexivity.
Qed.

(** [submit_answer] before it finds the session, the pool and the item:
    nothing is changed and an exception is raised. *)
Lemma submit_answer_early (st : Engine) assessment_id question_id selected_answer
    response_time now :
  (forall s pool q, dict_get assessment_id (active_assessments st) = Some s ->
     Session.is_complete s = false ->
     dict_get (Session.subject s) (question_pools st) = Some pool ->
     find_question question_id pool = Some q -> False) ->
  fst (submit_answer assessment_id question_id selected_answer response_time now st) = st /\
  is_ret (snd (submit_answer assessment_id question_id selected_answer response_time now st))
  = false.
Proof.
  intros H.
  unfold submit_answer, get_session, get_pool, bind, get, ret, raise; cbn beta iota zeta.
  destruct (dict_get assessment_id (active_assessments st)) as [s |] eqn:Hs; [| split; reflexivity].
  destruct (Session.is_complete s) eqn:Hc; [split; reflexivity |].
  destruct (dict_get (Session.subject s) (question_pools st)) as [pool |] eqn:Hp;
    [| split; reflexivity].
  destruct (find_question question_id pool) as [q |] eqn:Hq; [| split; reflexivity].
  exfalso; eapply H; eauto.
Qed.

(** [submit_answer] once the session, the pool and the item are found: the
    answered session is written back, then the next question is selected or
    the assessment completed. *)
Lemma submit_answer_found (st : Engine) assessment_id question_id selected_answer
    response_time now s pool q :
  dict_get assessment_id (active_assessments st) = Some s ->
  Session.is_complete s = false ->
  dict_get (Session.subject s) (question_pools st) = Some pool ->
  find_question question_id pool = Some q ->
  let st2 := answered_state st assessment_id question_id selected_answer response_time s pool q in
  let s2 := answered_session s q (Z.eqb selected_answer (QuestionItem.correct_answer q)) in
  fst (submit_answer assessment_id question_id selected_answer response_time now st)
  = (if _should_continue_assessment st2 s2
     then fst (_select_next_question assessment_id st2)
     else fst (_complete_assessment assessment_id now st2)) /\
  is_ret (snd (submit_answer assessment_id question_id selected_answer response_time now st))
  = (if _should_continue_assessment st2 s2
     then is_ret (snd (_select_next_question assessment_id st2))
     else true).
Proof.
  intros Hs Hc Hp Hq; cbv zeta.
  unfold submit_answer, get_session, get_pool, bind, get, ret, raise; cbn beta iota zeta.
  rewrite Hs, Hc, Hp, Hq.
  set (correct := Z.eqb selected_answer (QuestionItem.correct_answer q)).
  assert (Hst1 : forall k : unit -> M SubmitResponse.t,
    bind (match truthy response_time with
          | Some t => put_question (Session.subject s) question_id
                        (QuestionItem.update_statistics q correct t)
          | None => ret tt
          end) k st
    = k tt (statistics_state st (Session.subject s) question_id pool q correct response_time)).
  { intros k; unfold statistics_state, put_question, get_pool, bind, get, put, ret.
    destruct (truthy response_time); cbn beta iota zeta; [rewrite Hp |]; reflexivity. }
  unfold bind at 1 in Hst1; rewrite Hst1; clear Hst1.
  unfold answered_state, answered_session; cbv zeta; fold correct.
  destruct (estimate_ability _ _) as [new_ability standard_error]; cbn [fst snd].
  unfold put_session, bind, get, put, ret; cbn beta iota zeta.
  destruct (_should_continue_assessment _ _).
  - destruct (_select_next_question _ _) as [st3 [x | e]]; split; reflexivity.
  - rewrite complete_assessment_ret; cbn beta iota zeta.
    match goal with
    | |- context [_generate_assessment_report ?i ?x] =>
        destruct (generate_assessment_report_state i x) as [r Hr]; rewrite Hr
    end.
    split; reflexivity.
Qed.

Lemma select_next_question_cases (assessment_id : string) (st : Engine) :
  (exists e, _select_next_question assessment_id st = (st, Raise e)) \/
  (exists s q, dict_get assessment_id (active_assessments st) = Some s /\
     _select_next_question assessment_id st
     = (set_sessions st
          (dict_set assessment_id
             (Session.set_questions_asked s
                (Session.questions_asked s ++ [QuestionItem.item_id q])
                (S (Session.current_question_index s)))
             (active_assessments st)),
        Ret (S (Session.current_question_index s), q))).
Proof.
  unfold _select_next_question, get_session, get_pool, put_session, bind, get, ret, put, raise.
  cbn beta iota zeta.
  destruct (dict_get assessment_id (active_assessments st)) as [s |] eqn:Hs; [| left; eauto].
  destruct (dict_get (Session.subject s) (question_pools st)) as [pool |]; [| left; eauto].
  destruct (available_questions pool (Session.questions_asked s)) as [| first rest];
    [left; eauto |].
  right; eexists s, _; split; [reflexivity | reflexivity].
Qed.

Lemma complete_assessment_cases (assessment_id : string) (now : Z) (st : Engine) :
  fst (_complete_assessment assessment_id now st) = st \/
  exists s, dict_get assessment_id (active_assessments st) = Some s /\
    fst (_complete_assessment assessment_id now st)
    = set_sessions st (dict_set assessment_id (Session.set_complete s now)
                                (active_assessments st)).
Proof.
  unfold _complete_assessment, get_session, put_session, bind, get, put, ret; cbn.
  destruct (dict_get assessment_id (active_assessments st)) as [s |]; [right | left];
    eauto.
Qed.

(** The item pools after a [submit_answer] that found its item: only the
    statistics update can have changed them. *)
Lemma submit_answer_pools (st : Engine) assessment_id question_id selected_answer
    response_time now s pool q :
  dict_get assessment_id (active_assessments st) = Some s ->
  Session.is_complete s = false ->
  dict_get (Session.subject s) (question_pools st) = Some pool ->
  find_question question_id pool = Some q ->
  question_pools (fst (submit_answer assessment_id question_id selected_answer
                         response_time now st))
  = question_pools (statistics_state st (Session.subject s) question_id pool q
                      (Z.eqb selected_answer (QuestionItem.correct_answer q))
                      response_time).
Proof.
  intros Hs Hc Hp Hq.
  destruct (submit_answer_found st assessment_id question_id selected_answer
              response_time now s pool q Hs Hc Hp Hq) as [-> _].
  match goal with |- question_pools (if ?b then _ else _) = _ => destruct b end.
  - match goal with |- context [_select_next_question ?i ?x] =>
      destruct (select_next_question_cases i x) as [(e & ->) | (s' & q' & _ & ->)] end;
      reflexivity.
  - match goal with |- context [_complete_assessment ?i ?n ?x] =>
      destruct (complete_assessment_cases i n x) as [-> | (s' & _ & ->)] end;
      reflexivity.
Qed.

(** ** Usage statistics *)

Lemma update_statistics_total (q : QuestionItem.t) (correct : bool) (t total : R) :
  QuestionItem.avg_response_time q * INR (QuestionItem.times_used q) = total ->
  QuestionItem.avg_response_time (QuestionItem.update_statistics q correct t)
  * INR (QuestionItem.times_used (QuestionItem.update_statistics q correct t)) = total + t.
Proof.
  intros H; unfold QuestionItem.update_statistics; cbn [QuestionItem.avg_response_time
    QuestionItem.times_used].
  destruct (QuestionItem.times_used q) as [| n] eqn:En; cbn [Nat.eqb].
  - simpl in H |- *; rewrite Rmult_0_r in H; subst total; ring.
  - replace (S (S n) - 1)%nat with (S n) by lia.
    rewrite <- H.
    assert (0 < INR (S (S n))) by (apply lt_0_INR; lia).
    field; lra.
Qed.

Lemma apply_updates_spec (q : QuestionItem.t) (us : list (bool * R)) (total : R) :
  QuestionItem.avg_response_time q * INR (QuestionItem.times_used q) = total ->
  QuestionItem.times_used (apply_updates q us) = (QuestionItem.times_used q + List.length us)%nat /\
  QuestionItem.times_correct (apply_updates q us) = (QuestionItem.times_correct q + count_true us)%nat /\
  QuestionItem.avg_response_time (apply_updates q us)
  * INR (QuestionItem.times_used (apply_updates q us)) = total + sum_times us.
Proof.
  revert q total; induction us as [| [c t] us IH]; intros q total H.
  - simpl; rewrite Nat.add_0_r, Nat.add_0_r, Rplus_0_r; auto.
  - simpl apply_updates.
    destruct (IH (QuestionItem.update_statistics q c t) (total + t)
                 (update_statistics_total q c t total H)) as (H1 & H2 & H3).
    unfold apply_updates in *; rewrite H3, H1, H2.
    unfold count_true, sum_times; simpl.
    destruct c; simpl; repeat split; try lia; ring.
Qed.

(** C9 (amended): a [submit_answer] on an uncompleted session that finds its
    item updates the item's counters in the pool only when [response_time] is
    given (and nonzero): [times_used] grows by 1, [times_correct] by 1 exactly
    when the answer is correct.  Without a response time the pools are left
    unchanged.  From fresh counters, after [k >= 1] updates with times
    [t1..tk], [times_used = k] and [avg_response_time] is the mean of the
    [ti]. *)
Theorem submit_answer_usage_counters (st : Engine) assessment_id question_id
    selected_answer response_time now s pool q :
  dict_get assessment_id (active_assessments st) = Some s ->
  Session.is_complete s = false ->
  dict_get (Session.subject s) (question_pools st) = Some pool ->
  find_question question_id pool = Some q ->
  let correct := Z.eqb selected_answer (QuestionItem.correct_answer q) in
  let st' := fst (submit_answer assessment_id question_id selected_answer
                    response_time now st) in
  (forall t, truthy response_time = Some t ->
     question_pools st'
     = dict_set (Session.subject s)
         (replace_first question_id (QuestionItem.update_statistics q correct t) pool)
         (question_pools st) /\
     QuestionItem.times_used (QuestionItem.update_statistics q correct t)
     = S (QuestionItem.times_used q) /\
     QuestionItem.times_correct (QuestionItem.update_statistics q correct t)
     = (if correct then S (QuestionItem.times_correct q) else QuestionItem.times_correct q)) /\
  (truthy response_time = None -> question_pools st' = question_pools st) /\
  (forall (q0 : QuestionItem.t) (us : list (bool * R)),
     QuestionItem.times_used q0 = 0%nat -> us <> [] ->
     QuestionItem.times_used (apply_updates q0 us) = List.length us /\
     QuestionItem.avg_response_time (apply_updates q0 us)
     = sum_times us / INR (List.length us)).
Proof.
  intros Hs Hc Hp Hq correct st'.
  pose proof (submit_answer_pools st assessment_id question_id selected_answer
                response_time now s pool q Hs Hc Hp Hq) as Hpools.
  fold correct st' in Hpools; unfold statistics_state in Hpools.
  split; [| split].
  - intros t Ht; rewrite Ht in Hpools; split; [exact Hpools |].
    unfold QuestionItem.update_statistics; simpl; split; reflexivity.
  - intros Ht; now rewrite Ht in Hpools.
  - intros q0 us H0 Hne.
    assert (Hinit : QuestionItem.avg_response_time q0 * INR (QuestionItem.times_used q0) = 0)
      by (rewrite H0; simpl; ring).
    destruct (apply_updates_spec q0 us 0 Hinit) as (H1 & _ & H3).
    rewrite H0 in H1; simpl in H1; rewrite H1 in H3 |- *; split; [reflexivity |].
    assert (0 < INR (List.length us)) by (apply lt_0_INR; destruct us; [contradiction | simpl; lia]).
    apply (Rmult_eq_reg_r (INR (List.length us))); [| lra].
    rewrite H3; field; lra.
Qed.

Lemma submit_answer_usage_counters_witness :
  let pool := [sample_item "mathematics_1" 0; sample_item "mathematics_2" 1] in
  let s := sample_session [] ["mathematics_1"] false in
  let st := mkEngine 5 30 0.3 [("mathematics", pool)] [("assessment_u_0", s)] in
  (dict_get "assessment_u_0" (active_assessments st) = Some s /\
   Session.is_complete s = false /\
   dict_get (Session.subject s) (question_pools st) = Some pool /\
   find_question "mathematics_1" pool = Some (sample_item "mathematics_1" 0)) /\
  question_pools (fst (submit_answer "assessment_u_0" "mathematics_1" 1 (Some 3) 0 st))
  = dict_set "mathematics"
      (replace_first "mathematics_1"
         (QuestionItem.update_statistics (sample_item "mathematics_1" 0) true 3) pool)
      (question_pools st).
Proof.
  cbv zeta; split; [repeat split |].
  assert (Ht : truthy (Some 3) = Some 3)
    by (unfold truthy; destruct (Req_dec_T 3 0); [lra | reflexivity]).
  exact (proj1 ((proj1 (submit_answer_usage_counters
     (mkEngine 5 30 0.3
        [("mathematics", [sample_item "mathematics_1" 0; sample_item "mathematics_2" 1])]
        [("assessment_u_0", sample_session [] ["mathematics_1"] false)])
     "assessment_u_0" "mathematics_1" 1 (Some 3) 0
     (sample_session [] ["mathematics_1"] false)
     [sample_item "mathematics_1" 0; sample_item "mathematics_2" 1]
     (sample_item "mathematics_1" 0) eq_refl eq_refl eq_refl eq_refl)) 3 Ht)).
Defined.

(** C9 counterexample: [submit_answer] without a response time (the default
    [None]) does not touch the item's counters: [times_used] stays [0]. *)
Lemma submit_answer_without_time_keeps_counters :
  let pool := [sample_item "mathematics_1" 0; sample_item "mathematics_2" 1] in
  let s := sample_session [] ["mathematics_1"] false in
  let st := mkEngine 5 30 0.3 [("mathematics", pool)] [("assessment_u_0", s)] in
  option_map QuestionItem.times_used
    (match dict_get "mathematics"
             (question_pools (fst (submit_answer "assessment_u_0" "mathematics_1" 1 None 0 st)))
     with
     | Some p => find_question "mathematics_1" p
     | None => None
     end) = Some 0%nat.
Proof.
  cbv zeta.
  rewrite (submit_answer_pools
             (mkEngine 5 30 0.3
                [("mathematics", [sample_item "mathematics_1" 0; sample_item "mathematics_2" 1])]
                [("assessment_u_0", sample_session [] ["mathematics_1"] false)])
             "assessment_u_0" "mathematics_1" 1 None 0
             (sample_session [] ["mathematics_1"] false)
             [sample_item "mathematics_1" 0; sample_item "mathematics_2" 1]
             (sample_item "mathematics_1" 0) eq_refl eq_refl eq_refl eq_refl).
  reflexivity.
Qed.

(** ** Sessions after an operation *)

Lemma dict_get_set {V} (k k' : string) (v : V) (d : list (string * V)) :
  dict_get k' (dict_set k v d) = if String.eqb k' k then Some v else dict_get k' d.
Proof.
  induction d as [| [k0 v0] d IH]; simpl.
  - destruct (String.eqb k' k); reflexivity.
  - destruct (String.eqb_spec k k0) as [-> | Hne]; simpl.
    + destruct (String.eqb k' k0); reflexivity.
    + rewrite IH; destruct (String.eqb_spec k' k) as [-> | Hne']; [|reflexivity].
      destruct (String.eqb_spec k k0); [contradiction | reflexivity].
Qed.

Lemma dict_get_set_same {V} (k : string) (v : V) (d : list (string * V)) :
  dict_get k (dict_set k v d) = Some v.
Proof. rewrite dict_get_set, String.eqb_refl; reflexivity. Qed.

Lemma dict_get_set_other {V} (k k' : string) (v : V) (d : list (string * V)) :
  k' <> k -> dict_get k' (dict_set k v d) = dict_get k' d.
Proof. intros H; rewrite dict_get_set; destruct (String.eqb_spec k' k); congruence. Qed.

(** The session stored under [assessment_id] after a [submit_answer] that
    found its item, whether or not the selection that follows raised. *)
Lemma submit_answer_session (st : Engine) assessment_id question_id selected_answer
    response_time now s pool q :
  dict_get assessment_id (active_assessments st) = Some s ->
  Session.is_complete s = false ->
  dict_get (Session.subject s) (question_pools st) = Some pool ->
  find_question question_id pool = Some q ->
  let correct := Z.eqb selected_answer (QuestionItem.correct_answer q) in
  let rs := (Session.responses s ++ [(QuestionItem.difficulty q, correct,
                                      QuestionItem.discrimination q)])%list in
  exists s', dict_get assessment_id
               (active_assessments (fst (submit_answer assessment_id question_id
                                           selected_answer response_time now st)))
             = Some s' /\
    Session.responses s' = rs /\
    (Session.current_ability s', Session.standard_error s')
    = estimate_ability rs (Session.current_ability s).
Proof.
  intros Hs Hc Hp Hq correct rs.
  destruct (submit_answer_found st assessment_id question_id selected_answer
              response_time now s pool q Hs Hc Hp Hq) as [-> _].
  set (st2 := answered_state st assessment_id question_id selected_answer response_time s pool q).
  assert (H2 : dict_get assessment_id (active_assessments st2)
               = Some (answered_session s q correct)).
  { unfold st2, answered_state; simpl; apply dict_get_set_same. }
  assert (Hans : Session.responses (answered_session s q correct) = rs /\
                 (Session.current_ability (answered_session s q correct),
                  Session.standard_error (answered_session s q correct))
                 = estimate_ability rs (Session.current_ability s)).
  { unfold answered_session; simpl; split; [reflexivity |].
    destruct (estimate_ability _ _); reflexivity. }
  destruct (_should_continue_assessment st2 _).
  - destruct (select_next_question_cases assessment_id st2)
      as [(e & ->) | (s' & q' & Hs' & ->)].
    + eexists; split; [exact H2 | exact Hans].
    + rewrite H2 in Hs'; injection Hs' as <-.
      eexists; split; [apply dict_get_set_same |]; exact Hans.
  - destruct (complete_assessment_cases assessment_id now st2) as [-> | (s' & Hs' & ->)].
    + eexists; split; [exact H2 | exact Hans].
    + rewrite H2 in Hs'; injection Hs' as <-.
      eexists; split; [apply dict_get_set_same |]; exact Hans.
Qed.

(** C7 (amended): a [submit_answer] that finds its item appends exactly one
    record [(difficulty, correct, discrimination)] -- the item's [guessing]
    is not part of it -- and re-estimates [(ability, standard_error)] with
    [estimate_ability] over the whole history, from the previous ability;
    [estimate_ability] evaluates every response with [guessing = 0]. *)
Theorem submit_answer_records_response (st : Engine) assessment_id question_id
    selected_answer response_time now s pool q :
  dict_get assessment_id (active_assessments st) = Some s ->
  Session.is_complete s = false ->
  dict_get (Session.subject s) (question_pools st) = Some pool ->
  find_question question_id pool = Some q ->
  let correct := Z.eqb selected_answer (QuestionItem.correct_answer q) in
  let rs := (Session.responses s ++ [(QuestionItem.difficulty q, correct,
                                      QuestionItem.discrimination q)])%list in
  exists s', dict_get assessment_id
               (active_assessments (fst (submit_answer assessment_id question_id
                                           selected_answer response_time now st)))
             = Some s' /\
    Session.responses s' = rs /\
    (Session.current_ability s', Session.standard_error s')
    = estimate_ability rs (Session.current_ability s).
Proof. exact (submit_answer_session st assessment_id question_id selected_answer
                response_time now s pool q). Qed.

Lemma submit_answer_records_response_witness :
  let pool := [sample_item "mathematics_1" 0; sample_item "mathematics_2" 1] in
  let s := sample_session [] ["mathematics_1"] false in
  let st := mkEngine 5 30 0.3 [("mathematics", pool)] [("assessment_u_0", s)] in
  (dict_get "assessment_u_0" (active_assessments st) = Some s /\
   Session.is_complete s = false /\
   dict_get (Session.subject s) (question_pools st) = Some pool /\
   find_question "mathematics_1" pool = Some (sample_item "mathematics_1" 0)) /\
  exists s', dict_get "assessment_u_0"
               (active_assessments (fst (submit_answer "assessment_u_0" "mathematics_1"
                                           1 (Some 3) 0 st))) = Some s' /\
    Session.responses s' = [(0, true, 1)] /\
    (Session.current_ability s', Session.standard_error s')
    = estimate_ability [(0, true, 1)] 0.
Proof.
  cbv zeta; split; [repeat split |].
  exact (submit_answer_records_response
     (mkEngine 5 30 0.3
        [("mathematics", [sample_item "mathematics_1" 0; sample_item "mathematics_2" 1])]
        [("assessment_u_0", sample_session [] ["mathematics_1"] false)])
     "assessment_u_0" "mathematics_1" 1 (Some 3) 0
     (sample_session [] ["mathematics_1"] false)
     [sample_item "mathematics_1" 0; sample_item "mathematics_2" 1]
     (sample_item "mathematics_1" 0) eq_refl eq_refl eq_refl eq_refl).
Defined.

(** C7 counterexample: the item's guessing parameter does not reach the
    session: answering an item with [guessing = 0.9] or the same item with
    [guessing = 0] leaves identical responses, ability and standard error. *)
Lemma submit_answer_ignores_guessing :
  session_after_answer 0.9 = session_after_answer 0.
Proof.
  unfold session_after_answer.
  destruct (submit_answer_session (guessing_state 0.9) "assessment_u_0" "mathematics_1" 1
              None 0 (sample_session [] ["mathematics_1"] false) [guessing_item 0.9]
              (guessing_item 0.9) eq_refl eq_refl eq_refl eq_refl) as (s1 & -> & R1 & E1).
  destruct (submit_answer_session (guessing_state 0) "assessment_u_0" "mathematics_1" 1
              None 0 (sample_session [] ["mathematics_1"] false) [guessing_item 0]
              (guessing_item 0) eq_refl eq_refl eq_refl eq_refl) as (s2 & -> & R2 & E2).
  simpl in R1, R2, E1, E2 |- *.
  rewrite R1, R2; rewrite <- E2 in E1; injection E1 as -> ->; reflexivity.
Qed.

(** ** Session invariants *)

Lemma all_sessions_set (P : Session.t -> Prop) (st : Engine) (k : string) (v : Session.t) :
  (forall k' s, k' <> k -> dict_get k' (active_assessments st) = Some s -> P s) -> P v ->
  all_sessions P (set_sessions st (dict_set k v (active_assessments st))).
Proof.
  intros Hother Hv k' s'; simpl; rewrite dict_get_set.
  destruct (String.eqb_spec k' k) as [-> | Hne]; [intros [= <-]; exact Hv |].
  now apply Hother.
Qed.

Lemma statistics_state_sessions st subject question_id pool q correct response_time :
  active_assessments (statistics_state st subject question_id pool q correct response_time)
  = active_assessments st.
Proof. unfold statistics_state; destruct (truthy response_time); reflexivity. Qed.

Lemma select_next_question_preserves (P : Session.t -> Prop) assessment_id st :
  (forall s asked index, P s -> P (Session.set_questions_asked s asked index)) ->
  all_sessions P st -> all_sessions P (fst (_select_next_question assessment_id st)).
Proof.
  intros HP Hall.
  destruct (select_next_question_cases assessment_id st) as [(e & ->) | (s & q & Hs & ->)];
    [exact Hall |].
  apply all_sessions_set; [intros k' s' _; apply Hall | apply HP, (Hall _ _ Hs)].
Qed.

Lemma complete_assessment_preserves (P : Session.t -> Prop) assessment_id now st :
  (forall s, P s -> P (Session.set_complete s now)) ->
  all_sessions P st -> all_sessions P (fst (_complete_assessment assessment_id now st)).
Proof.
  intros HP Hall.
  destruct (complete_assessment_cases assessment_id now st) as [-> | (s & Hs & ->)];
    [exact Hall |].
  apply all_sessions_set; [intros k' s' _; apply Hall | apply HP, (Hall _ _ Hs)].
Qed.

Lemma create_adaptive_assessment_cases user_id subject user_context timestamp now st :
  (exists e, create_adaptive_assessment user_id subject user_context timestamp now st
             = (st, Raise e)) \/
  exists subject' starting_ability,
    let assessment_id := String.append "assessment_"
                           (String.append user_id (String.append "_" timestamp)) in
    let st1 := set_sessions st
                 (dict_set assessment_id
                    (Session.mk assessment_id user_id subject' now None starting_ability
                                2 [] [] 0 false)
                    (active_assessments st)) in
    fst (create_adaptive_assessment user_id subject user_context timestamp now st)
    = fst (_select_next_question assessment_id st1) /\
    is_ret (snd (create_adaptive_assessment user_id subject user_context timestamp now st))
    = is_ret (snd (_select_next_question assessment_id st1)).
Proof.
  unfold create_adaptive_assessment, put_session, bind, get, put, ret, raise.
  cbn beta iota zeta.
  destruct (dict_get subject (question_pools st)) as [pool |].
  - right; exists subject, (_get_starting_ability subject user_context); cbv zeta.
    destruct (_select_next_question _ _) as [st' [x | e]]; split; reflexivity.
  - destruct (question_pools st) as [| [first_subject pool] rest]; [left; eauto |].
    right; exists first_subject, (_get_starting_ability first_subject user_context); cbv zeta.
    destruct (_select_next_question _ _) as [st' [x | e]]; split; reflexivity.
Qed.

Lemma estimate_ability_se_pos (rs : list Response) (initial_ability : R) :
  0 < snd (estimate_ability rs initial_ability).
Proof.
  unfold estimate_ability; destruct rs as [| r rs]; simpl; [lra |].
  destruct (Rltb 0 _) eqn:E; [| lra].
  apply Rltb_true in E.
  unfold Rdiv; rewrite Rmult_1_l; apply Rinv_0_lt_compat, sqrt_lt_R0, E.
Qed.

(** C10: every session's [standard_error] is [> 0] initially and stays so
    after every engine operation, also when the operation raised; hence the
    division [1.0 / standard_error] of the report never divides by zero. *)
Theorem standard_error_stays_positive :
  all_sessions se_positive init /\
  (forall st, all_sessions se_positive st ->
     (forall user_id subject user_context timestamp now,
        all_sessions se_positive
          (fst (create_adaptive_assessment user_id subject user_context timestamp now st))) /\
     (forall assessment_id question_id selected_answer response_time now,
        all_sessions se_positive
          (fst (submit_answer assessment_id question_id selected_answer response_time now st))) /\
     (forall assessment_id,
        all_sessions se_positive (fst (_generate_assessment_report assessment_id st)))) /\
  (forall st assessment_id s, all_sessions se_positive st ->
     dict_get assessment_id (active_assessments st) = Some s ->
     py_div 1 (Session.standard_error s) = Some (1 / Session.standard_error s)).
Proof.
  assert (Hsel : forall s asked index, se_positive s ->
                 se_positive (Session.set_questions_asked s asked index)) by (intros; exact H).
  assert (Hcomp : forall now s, se_positive s -> se_positive (Session.set_complete s now))
    by (intros; exact H).
  split; [| split].
  - intros k s H; discriminate.
  - intros st Hall; split; [| split].
    + intros user_id subject user_context timestamp now.
      destruct (create_adaptive_assessment_cases user_id subject user_context timestamp now st)
        as [(e & ->) | (subject' & a & Hfst & _)]; [exact Hall |].
      rewrite Hfst; apply select_next_question_preserves; [exact Hsel |].
      apply all_sessions_set; [intros k' s' _; apply Hall | unfold se_positive; simpl; lra].
    + intros assessment_id question_id selected_answer response_time now.
      destruct (dict_get assessment_id (active_assessments st)) as [s |] eqn:Hs.
      2: { rewrite (proj1 (submit_answer_early st assessment_id question_id selected_answer
                             response_time now ltac:(intros; congruence))); exact Hall. }
      destruct (Session.is_complete s) eqn:Hc.
      1: { rewrite (proj1 (submit_answer_early st assessment_id question_id selected_answer
                             response_time now ltac:(intros; congruence))); exact Hall. }
      destruct (dict_get (Session.subject s) (question_pools st)) as [pool |] eqn:Hp.
      2: { rewrite (proj1 (submit_answer_early st assessment_id question_id selected_answer
                             response_time now ltac:(intros; congruence))); exact Hall. }
      destruct (find_question question_id pool) as [q |] eqn:Hq.
      2: { rewrite (proj1 (submit_answer_early st assessment_id question_id selected_answer
                             response_time now ltac:(intros; congruence))); exact Hall. }
      rewrite (proj1 (submit_answer_found st assessment_id question_id selected_answer
                        response_time now s pool q Hs Hc Hp Hq)).
      assert (H2 : all_sessions se_positive
                     (answered_state st assessment_id question_id selected_answer
                        response_time s pool q)).
      { unfold answered_state; apply all_sessions_set.
        - intros k' s' _; rewrite statistics_state_sessions; apply Hall.
        - unfold answered_session, se_positive; simpl; apply estimate_ability_se_pos. }
      destruct (_should_continue_assessment _ _).
      * apply select_next_question_preserves; assumption.
      * apply complete_assessment_preserves; [apply Hcomp | assumption].
    + intros assessment_id.
      destruct (generate_assessment_report_state assessment_id st) as [r ->]; exact Hall.
  - intros st assessment_id s Hall Hs.
    unfold py_div; destruct (Req_dec_T (Session.standard_error s) 0) as [E |]; [| reflexivity].
    pose proof (Hall _ _ Hs) as Hp; unfold se_positive in Hp; lra.
Qed.

(** ** Asked items and responses *)

Lemma complete_assessment_found (assessment_id : string) (now : Z) (st : Engine) s :
  dict_get assessment_id (active_assessments st) = Some s ->
  fst (_complete_assessment assessment_id now st)
  = set_sessions st (dict_set assessment_id (Session.set_complete s now)
                              (active_assessments st)).
Proof.
  intros Hs; unfold _complete_assessment, get_session, put_session, bind, get, put, ret; cbn.
  now rewrite Hs.
Qed.

(** C8 (amended): along operations that return normally, every session
    satisfies [asked_balance]: [len(questions_asked) = len(responses) + 1]
    while it is active (creation already asks the first item), and
    [len(questions_asked) = len(responses)] once it is complete. *)
Theorem asked_responses_balance :
  all_sessions asked_balance init /\
  (forall st user_id subject user_context timestamp now,
     all_sessions asked_balance st ->
     is_ret (snd (create_adaptive_assessment user_id subject user_context timestamp now st))
     = true ->
     all_sessions asked_balance
       (fst (create_adaptive_assessment user_id subject user_context timestamp now st))) /\
  (forall st assessment_id question_id selected_answer response_time now,
     all_sessions asked_balance st ->
     is_ret (snd (submit_answer assessment_id question_id selected_answer response_time now st))
     = true ->
     all_sessions asked_balance
       (fst (submit_answer assessment_id question_id selected_answer response_time now st))) /\
  (forall st assessment_id, all_sessions asked_balance st ->
     all_sessions asked_balance (fst (_generate_assessment_report assessment_id st))).
Proof.
  split; [| split; [| split]].
  - intros k s H; discriminate.
  - intros st user_id subject user_context timestamp now Hall Hret.
    destruct (create_adaptive_assessment_cases user_id subject user_context timestamp now st)
      as [(e & Hr) | (subject' & a & Hfst & Hret')].
    { rewrite Hr in Hret; discriminate. }
    rewrite Hfst; rewrite Hret' in Hret.
    match goal with |- context [_select_next_question ?i ?x] =>
      destruct (select_next_question_cases i x) as [(e & Hr) | (s & q & Hs & Hr)] end;
      rewrite Hr in Hret |- *; [discriminate |].
    simpl in Hs; rewrite dict_get_set_same in Hs; injection Hs as <-.
    apply all_sessions_set.
    + intros k' s' Hne; simpl; rewrite dict_get_set_other by exact Hne; apply Hall.
    + reflexivity.
  - intros st assessment_id question_id selected_answer response_time now Hall Hret.
    destruct (dict_get assessment_id (active_assessments st)) as [s |] eqn:Hs.
    2: { rewrite (proj2 (submit_answer_early st assessment_id question_id selected_answer
                           response_time now ltac:(intros; congruence))) in Hret; discriminate. }
    destruct (Session.is_complete s) eqn:Hc.
    1: { rewrite (proj2 (submit_answer_early st assessment_id question_id selected_answer
                           response_time now ltac:(intros; congruence))) in Hret; discriminate. }
    destruct (dict_get (Session.subject s) (question_pools st)) as [pool |] eqn:Hp.
    2: { rewrite (proj2 (submit_answer_early st assessment_id question_id selected_answer
                           response_time now ltac:(intros; congruence))) in Hret; discriminate. }
    destruct (find_question question_id pool) as [q |] eqn:Hq.
    2: { rewrite (proj2 (submit_answer_early st assessment_id question_id selected_answer
                           response_time now ltac:(intros; congruence))) in Hret; discriminate. }
    destruct (submit_answer_found st assessment_id question_id selected_answer
                response_time now s pool q Hs Hc Hp Hq) as [-> Hret'].
    rewrite Hret' in Hret; clear Hret'.
    set (correct := Z.eqb selected_answer (QuestionItem.correct_answer q)) in *.
    set (st2 := answered_state st assessment_id question_id selected_answer response_time
                  s pool q) in *.
    set (s2 := answered_session s q correct) in *.
    assert (H2 : dict_get assessment_id (active_assessments st2) = Some s2)
      by (unfold st2, answered_state; simpl; apply dict_get_set_same).
    assert (Hother : forall k' s', k' <> assessment_id ->
              dict_get k' (active_assessments st2) = Some s' -> asked_balance s').
    { intros k' s' Hne; unfold st2, answered_state; simpl.
      rewrite dict_get_set_other, statistics_state_sessions by exact Hne; apply Hall. }
    pose proof (Hall _ _ Hs) as Hb; unfold asked_balance in Hb; rewrite Hc in Hb.
    assert (Hs2 : Session.questions_asked s2 = Session.questions_asked s /\
                  List.length (Session.responses s2) = S (List.length (Session.responses s)) /\
                  Session.is_complete s2 = false).
    { unfold s2, answered_session; simpl; rewrite length_app; simpl.
      split; [reflexivity | split; [lia | exact Hc]]. }
    destruct (_should_continue_assessment st2 s2).
    + destruct (select_next_question_cases assessment_id st2) as [(e & Hr) | (s' & q' & Hs' & Hr)];
        rewrite Hr in Hret |- *; [discriminate |].
      rewrite H2 in Hs'; injection Hs' as <-.
      apply all_sessions_set; [exact Hother |].
      unfold asked_balance, Session.set_questions_asked;
        cbn [Session.questions_asked Session.responses Session.is_complete].
      rewrite length_app; cbn [List.length].
      destruct Hs2 as (-> & -> & ->); lia.
    + rewrite (complete_assessment_found assessment_id now st2 s2 H2).
      apply all_sessions_set; [exact Hother |].
      unfold asked_balance, Session.set_complete;
        cbn [Session.questions_asked Session.responses Session.is_complete].
      destruct Hs2 as (-> & -> & _); lia.
  - intros st assessment_id Hall.
    destruct (generate_assessment_report_state assessment_id st) as [r ->]; exact Hall.
Qed.

(** C8 counterexample: right after a successful [create_adaptive_assessment]
    the new session has no response but one asked item. *)
Lemma create_asks_first_item :
  let st := mkEngine 5 30 0.3 [("mathematics", [sample_item "mathematics_1" 0])] [] in
  let r := create_adaptive_assessment "u" "mathematics" (mkUserContext [] None) "0" 0 st in
  is_ret (snd r) = true /\
  option_map (fun s => (List.length (Session.responses s),
                        List.length (Session.questions_asked s)))
    (dict_get "assessment_u_0" (active_assessments (fst r))) = Some (0%nat, 1%nat).
Proof.
  cbv zeta.
  unfold create_adaptive_assessment, _select_next_question, get_session, get_pool,
    put_session, bind, get, put, ret, raise; cbn.
  split; reflexivity.
Qed.

(** ** The ability estimate *)

Lemma list_sum_cons (x : R) (xs : list R) :
  Reference.list_sum (x :: xs) = x + Reference.list_sum xs.
Proof. reflexivity. Qed.

Lemma accumulate_sums (ability : R) (rs : list Response) (l s : R) :
  accumulate ability rs l s
  = (l + Reference.list_sum
           (map (Reference.first_term ability) (filter (Reference.well_conditioned ability) rs)),
     s + Reference.list_sum
           (map (Reference.second_term ability) (filter (Reference.well_conditioned ability) rs))).
Proof.
  revert l s; induction rs as [| [[difficulty correct] discrimination] rs IH]; intros l s.
  - simpl; f_equal; ring.
  - cbn [accumulate filter].
    set (p := probability_correct ability difficulty discrimination 0).
    change (Reference.well_conditioned ability (difficulty, correct, discrimination))
      with (Rltb 0.001 p && Rltb 0.001 (1 - p)).
    destruct (Rltb 0.001 p && Rltb 0.001 (1 - p)).
    + cbn [map]; rewrite !list_sum_cons.
      change (Reference.first_term ability (difficulty, correct, discrimination))
        with (if correct then discrimination * (1 - p) else - (discrimination * p)).
      change (Reference.second_term ability (difficulty, correct, discrimination))
        with (- (discrimination * discrimination * p * (1 - p))).
      destruct correct; rewrite IH; f_equal; ring.
    + exact (IH l s).
Qed.

Lemma newton_raphson_reference (n : nat) (ability : R) (rs : list Response) :
  newton_raphson n ability rs = Reference.newton Reference.well_conditioned n ability rs.
Proof.
  revert ability; induction n as [| n IH]; intros ability; [reflexivity |].
  cbn [newton_raphson Reference.newton].
  rewrite accumulate_sums, !Rplus_0_l.
  unfold Reference.derivatives; cbn [fst snd].
  set (kept := filter (Reference.well_conditioned ability) rs).
  set (d1 := Reference.list_sum (map (Reference.first_term ability) kept)).
  set (d2 := Reference.list_sum (map (Reference.second_term ability) kept)).
  destruct (Rltb 0.001 (Rabs d2)) eqn:H1.
  - apply Rltb_true in H1.
    assert (H2 : Rleb (Rabs d2) 0.001 = false) by (apply Rleb_false; exact H1).
    rewrite H2; destruct (Rltb (Rabs (d1 / d2)) 0.001); [reflexivity | apply IH].
  - apply Rltb_false in H1.
    assert (H2 : Rleb (Rabs d2) 0.001 = true) by (apply Rleb_true; exact H1).
    now rewrite H2.
Qed.

Lemma total_information_acc (ability acc : R) (rs : list Response) :
  fold_left (fun acc '(difficulty, _, discrimination) =>
               acc + information_function ability difficulty discrimination 0) rs acc
  = acc + Reference.list_sum
            (map (fun '(difficulty, _, discrimination) =>
                    information_function ability difficulty discrimination 0) rs).
Proof.
  revert acc; induction rs as [| [[difficulty correct] discrimination] rs IH]; intros acc.
  - simpl; ring.
  - cbn [fold_left map]; rewrite IH, list_sum_cons; ring.
Qed.

(** C1 (amended). [estimate_ability] is the Newton-Raphson estimator the spec
    describes (at most 10 iterations, the same stopping rules, standard error
    from the total information over all responses), except that the derivative
    sums only range over the responses whose probability [P] satisfies
    [0.001 < P] and [0.001 < 1 - P]. *)
Theorem estimate_ability_filtered_reference (rs : list Response) (initial_ability : R) :
  estimate_ability rs initial_ability
  = Reference.estimate_ability_reference Reference.well_conditioned rs initial_ability.
Proof.
  destruct rs as [| r rs]; [reflexivity |].
  unfold estimate_ability, Reference.estimate_ability_reference, total_information.
  rewrite newton_raphson_reference, total_information_acc, Rplus_0_l.
  reflexivity.
Qed.

Lemma exp_20_bounds : 1048576 <= exp 20 <= 3486784401.
Proof.
  replace 20 with (INR 20 * 1) by (rewrite INR_IZR_INZ; simpl; ring).
  rewrite exp_INR_mult; pose proof exp_1_bounds as [H2 H3].
  split.
  - replace 1048576 with (2 ^ 20) by ring; apply pow_incr; lra.
  - replace 3486784401 with (3 ^ 20) by ring; apply pow_incr; lra.
Qed.

Lemma steep_probability :
  probability_correct 0 0.002 10000 0 = / (1 + exp 20).
Proof.
  replace 20 with (- (10000) * (0 - 0.002)) by lra.
  rewrite probability_correct_unfold by (apply exp_20_representable; lra).
  pose proof (exp_pos (- (10000) * (0 - 0.002))); field; lra.
Qed.

Lemma newton_step (keep : R -> Response -> bool) (n : nat) (ability : R)
      (rs : list Response) :
  Reference.newton keep (S n) ability rs
  = let d := Reference.derivatives keep ability rs in
    if Rleb (Rabs (snd d)) 0.001 then ability
    else
      let step := fst d / snd d in
      if Rltb (Rabs step) 0.001 then ability - step
      else Reference.newton keep n (ability - step) rs.
Proof. reflexivity. Qed.

(** One Newton step on a single correct response moves the ability up. *)
Lemma newton_keep_all_correct (n : nat) (ability difficulty a : R) :
  0 < a -> ability <= Reference.newton Reference.keep_all n ability [(difficulty, true, a)].
Proof.
  intros Ha; revert ability; induction n as [| n IH]; intros ability; [simpl; lra |].
  cbn [Reference.newton Reference.derivatives filter Reference.keep_all map fst snd].
  rewrite !list_sum_cons; cbn [Reference.list_sum fold_right].
  cbn [Reference.first_term Reference.second_term Reference.response_probability].
  set (p := probability_correct ability difficulty a 0).
  pose proof (probability_correct_open ability difficulty a) as Hp; fold p in Hp.
  destruct (Rleb _ 0.001); [lra |].
  assert (Hstep : (a * (1 - p) + 0) / (- (a * a * p * (1 - p)) + 0) = - / (a * p)).
  { field; repeat split; lra. }
  assert (Hpos : 0 < / (a * p)) by (apply Rinv_0_lt_compat, Rmult_lt_0_compat; lra).
  rewrite Hstep.
  destruct (Rltb _ 0.001); [lra |].
  specialize (IH (ability - - / (a * p))); lra.
Qed.

(** C1 (counterexample). One correct answer to an item of difficulty 0.002
    and discrimination 10000, from ability 0: its probability is
    [1 / (1 + e^20) < 0.001], so [estimate_ability] leaves it out of the
    derivative sums, meets a zero second derivative and stays at 0, whereas
    the estimator that sums over the full response list moves to a positive
    ability. *)
Lemma estimate_ability_skips_extreme_response :
  fst (estimate_ability [(0.002, true, 10000)] 0) = 0 /\
  0 < fst (Reference.estimate_ability_reference Reference.keep_all [(0.002, true, 10000)] 0).
Proof.
  pose proof exp_20_bounds as HE.
  split.
  - assert (Hlow : Rltb 0.001 (probability_correct 0 0.002 10000 0) = false).
    { apply Rltb_false; rewrite steep_probability.
      apply Rle_trans with (/ 1000); [| lra].
      apply Rinv_le_contravar; lra. }
    cbn [estimate_ability fst newton_raphson accumulate].
    rewrite Hlow; cbn [andb accumulate].
    rewrite Rabs_R0.
    replace (Rltb 0.001 0) with false by (symmetry; apply Rltb_false; lra).
    reflexivity.
  - change (fst (Reference.estimate_ability_reference Reference.keep_all
                   [(0.002, true, 10000)] 0))
      with (Reference.newton Reference.keep_all (S 9) 0 [(0.002, true, 10000)]).
    rewrite newton_step; cbv zeta.
    cbn [Reference.derivatives filter Reference.keep_all map fst snd].
    rewrite !list_sum_cons; cbn [Reference.list_sum fold_right].
    cbn [Reference.first_term Reference.second_term Reference.response_probability].
    rewrite steep_probability.
    set (p := / (1 + exp 20)).
    assert (Hp1 : / (1 + 3486784401) <= p) by (apply Rinv_le_contravar; lra).
    assert (Hp2 : p <= / 2) by (apply Rinv_le_contravar; lra).
    assert (Hp0 : 0 < p) by (apply Rinv_0_lt_compat; lra).
    assert (Hflat : Rleb (Rabs (- (10000 * 10000 * p * (1 - p)) + 0)) 0.001 = false).
    { apply Rleb_false.
      apply Rlt_le_trans with (10000 * 10000 * p * (1 - p)).
      - assert (Hq : / 2 <= 1 - p) by lra.
        assert (Hprod : / (1 + 3486784401) * / 2 <= p * (1 - p))
          by (apply Rmult_le_compat; lra).
        lra.
      - rewrite Rplus_0_r, Rabs_Ropp; apply Rle_abs. }
    rewrite Hflat.
    assert (Hstep : (10000 * (1 - p) + 0) / (- (10000 * 10000 * p * (1 - p)) + 0)
                    = - / (10000 * p)) by (field; repeat split; lra).
    assert (Hpos : 0 < / (10000 * p)) by (apply Rinv_0_lt_compat; lra).
    rewrite Hstep.
    destruct (Rltb _ 0.001); [lra |].
    pose proof (newton_keep_all_correct 9 (0 - - / (10000 * p)) 0.002 10000 ltac:(lra)); lra.
Qed.

End Properties.

(** * Properties of the rest of the engine *)

Module Extras.
Import ItemResponseTheory AdaptiveAssessmentEngine Lifecycle Fixtures Properties.
Local Open Scope string_scope.

(** ** Calibration *)

Lemma calibrate_discrimination_range (d : R) : 0.5 <= calibrate_discrimination d <= 3.
Proof.
  unfold calibrate_discrimination.
  destruct (Rltb d 0.5) eqn:E1; [lra |].
  destruct (Rltb 3 d) eqn:E2; [lra |].
  apply Rltb_false in E1, E2; lra.
Qed.

Lemma calibrate_discrimination_id (d : R) :
  0.5 <= d <= 3 -> calibrate_discrimination d = d.
Proof.
  intros Hd; unfold calibrate_discrimination.
  rewrite (proj2 (Rltb_false d 0.5)) by lra.
  rewrite (proj2 (Rltb_false 3 d)) by lra.
  reflexivity.
Qed.

Lemma calibrate_item_id (q : QuestionItem.t) :
  0.5 <= QuestionItem.discrimination q <= 3 -> calibrate_item q = q.
Proof.
  intros Hd; unfold calibrate_item; rewrite calibrate_discrimination_id by exact Hd.
  destruct q; reflexivity.
Qed.

Lemma dict_get_map_values {V W} (f : V -> W) (k : string) (d : list (string * V)) :
  dict_get k (map (fun '(k', v) => (k', f v)) d) = option_map f (dict_get k d).
Proof.
  induction d as [| [k' v] d IH]; [reflexivity |].
  simpl; destruct (String.eqb k k'); [reflexivity | exact IH].
Qed.

(** [_calibrate_items] clamps the discrimination of every item of every pool
    into [[0.5, 3.0]], leaves an item already in that range unchanged, changes
    no other field, no pool and no session, and a second calibration changes
    nothing more. *)
Theorem calibrate_items_spec (st : Engine) :
  (forall subject pool, dict_get subject (question_pools st) = Some pool ->
     dict_get subject (question_pools (_calibrate_items st))
     = Some (map calibrate_item pool)) /\
  (forall subject, dict_get subject (question_pools st) = None ->
     dict_get subject (question_pools (_calibrate_items st)) = None) /\
  (forall subject pool q, dict_get subject (question_pools (_calibrate_items st)) = Some pool ->
     In q pool -> 0.5 <= QuestionItem.discrimination q <= 3) /\
  (forall q, 0.5 <= QuestionItem.discrimination q <= 3 -> calibrate_item q = q) /\
  (forall q, calibrate_item q
             = QuestionItem.mk (QuestionItem.item_id q) (QuestionItem.content q)
                 (QuestionItem.options q) (QuestionItem.correct_answer q)
                 (QuestionItem.difficulty q)
                 (calibrate_discrimination (QuestionItem.discrimination q))
                 (QuestionItem.guessing q) (QuestionItem.subject q) (QuestionItem.topic q)
                 (QuestionItem.times_used q) (QuestionItem.times_correct q)
                 (QuestionItem.avg_response_time q)) /\
  _calibrate_items (_calibrate_items st) = _calibrate_items st /\
  active_assessments (_calibrate_items st) = active_assessments st.
Proof.
  assert (Hget : forall subject,
            dict_get subject (question_pools (_calibrate_items st))
            = option_map (map calibrate_item) (dict_get subject (question_pools st)))
    by (intros subject; apply dict_get_map_values).
  split; [| split; [| split; [| split; [| split; [| split]]]]].
  - intros subject pool H; now rewrite Hget, H.
  - intros subject H; now rewrite Hget, H.
  - intros subject pool q H Hq; rewrite Hget in H.
    destruct (dict_get subject (question_pools st)) as [pool0 |]; [| discriminate].
    injection H as <-; apply in_map_iff in Hq as (q0 & <- & _).
    apply calibrate_discrimination_range.
  - exact calibrate_item_id.
  - reflexivity.
  - assert (Hp : forall pools : list (string * list QuestionItem.t),
              map (fun '(subject, questions) => (subject, map calibrate_item questions))
                (map (fun '(subject, questions) => (subject, map calibrate_item questions))
                   pools)
              = map (fun '(subject, questions) => (subject, map calibrate_item questions))
                  pools).
    { intros pools; rewrite map_map; apply map_ext; intros [subject questions].
      rewrite map_map; f_equal; apply map_ext; intros q.
      apply calibrate_item_id, calibrate_discrimination_range. }
    unfold _calibrate_items, set_pools; cbn [question_pools min_questions max_questions
      precision_threshold active_assessments].
    now rewrite Hp.
  - reflexivity.
Qed.

(** ** Initialisation *)

Lemma append_cancel_l (s x y : string) : (s ++ x = s ++ y)%string -> x = y.
Proof. induction s as [| c s IH]; simpl; [auto | intros H; injection H; auto]. Qed.

Lemma string_of_nat_inj (m n : nat) : string_of_nat m = string_of_nat n -> m = n.
Proof.
  unfold string_of_nat; intros H.
  apply (f_equal NilEmpty.uint_of_string) in H; rewrite !NilEmpty.usu in H.
  injection H as H; exact (DecimalNat.Unsigned.to_uint_inj _ _ H).
Qed.

Lemma item_ids_distinct (subject : string) (m n : nat) :
  (subject ++ "_" ++ string_of_nat m)%string = (subject ++ "_" ++ string_of_nat n)%string ->
  m = n.
Proof. intros H; apply append_cancel_l in H; injection H as H; now apply string_of_nat_inj. Qed.

Lemma build_questions_ids (subject : string) (uniform : nat -> R) (draw i : nat)
      (data : list QuestionData) :
  map QuestionItem.item_id (build_questions subject uniform draw i data)
  = map (fun k => (subject ++ "_" ++ string_of_nat (S k))%string) (seq i (List.length data)).
Proof.
  revert draw i; induction data as [| d data IH]; intros draw i; [reflexivity |].
  simpl; f_equal; apply IH.
Qed.

Lemma build_questions_nodup (subject : string) (uniform : nat -> R) (draw i : nat)
      (data : list QuestionData) :
  NoDup (map QuestionItem.item_id (build_questions subject uniform draw i data)).
Proof.
  rewrite build_questions_ids.
  generalize (List.length data) as n; intros n; revert i.
  induction n as [| n IH]; intros i; [constructor |].
  simpl; constructor; [| apply IH].
  intros Hin; apply in_map_iff in Hin as (k & Hk & Hseq).
  apply item_ids_distinct in Hk; apply in_seq in Hseq; lia.
Qed.

Lemma build_questions_items (subject : string) (uniform : nat -> R) (draw i : nat)
      (data : list QuestionData) (q : QuestionItem.t) :
  In q (build_questions subject uniform draw i data) ->
  exists k d, In d data /\
    QuestionItem.subject q = subject /\ QuestionItem.guessing q = 0.1 /\
    QuestionItem.discrimination q = uniform k /\
    QuestionItem.correct_answer q = qd_correct d /\
    QuestionItem.options q = qd_options d /\
    QuestionItem.times_used q = 0%nat /\ QuestionItem.times_correct q = 0%nat.
Proof.
  revert draw i; induction data as [| d data IH]; intros draw i; [intros [] |].
  intros [<- | Hq].
  - exists draw, d; simpl; repeat split; auto.
  - destruct (IH (S draw) (S i) Hq) as (k & d' & Hd' & Hrest).
    exists k, d'; split; [now right | exact Hrest].
Qed.

Lemma questions_data_valid (subject : string) (d : QuestionData) :
  In d (questions_data subject) ->
  (0 <= qd_correct d < Z.of_nat (List.length (qd_options d)))%Z.
Proof.
  unfold questions_data.
  destruct (String.eqb subject "python_programming");
    [| destruct (String.eqb subject "mathematics");
       [| destruct (String.eqb subject "machine_learning")]];
    intros H; repeat (destruct H as [<- | H]; [simpl; lia |]); contradiction.
Qed.

Lemma questions_data_nonempty (subject : string) : questions_data subject <> [].
Proof.
  unfold questions_data.
  destruct (String.eqb subject "python_programming");
    [| destruct (String.eqb subject "mathematics");
       [| destruct (String.eqb subject "machine_learning")]]; discriminate.
Qed.

(** What [_create_sample_questions] builds, whatever the subject. *)
Lemma create_sample_questions_spec (subject : string) (uniform : nat -> R) (draw : nat) :
  (forall n, 0.8 <= uniform n <= 2) ->
  let pool := fst (_create_sample_questions subject uniform draw) in
  pool <> [] /\
  NoDup (map QuestionItem.item_id pool) /\
  (forall q, In q pool ->
     QuestionItem.subject q = subject /\
     QuestionItem.guessing q = 0.1 /\
     0.8 <= QuestionItem.discrimination q <= 2 /\
     (0 <= QuestionItem.correct_answer q < Z.of_nat (List.length (QuestionItem.options q)))%Z /\
     QuestionItem.times_used q = 0%nat /\ QuestionItem.times_correct q = 0%nat).
Proof.
  intros Hu; cbv zeta; unfold _create_sample_questions; cbn [fst].
  split; [| split].
  - pose proof (questions_data_nonempty subject).
    destruct (questions_data subject); [contradiction | discriminate].
  - apply build_questions_nodup.
  - intros q Hq.
    destruct (build_questions_items _ _ _ _ _ q Hq)
      as (k & d & Hd & Hs & Hg & Hdisc & Hc & Ho & Hu0 & Hc0).
    rewrite Hs, Hg, Hdisc, Hc, Ho, Hu0, Hc0.
    repeat split; try reflexivity; try apply Hu.
    all: pose proof (questions_data_valid subject d Hd); lia.
Qed.

Lemma initialize_pools (uniform : nat -> R) :
  question_pools (engine (initialize uniform new_service))
  = map (fun '(subject, questions) => (subject, map calibrate_item questions))
      [("mathematics", fst (_create_sample_questions "mathematics" uniform 0));
       ("python_programming", fst (_create_sample_questions "python_programming" uniform 3));
       ("machine_learning", fst (_create_sample_questions "machine_learning" uniform 8));
       ("data_science", fst (_create_sample_questions "data_science" uniform 10))].
Proof. reflexivity. Qed.

(** A fresh engine is not healthy.  [initialize] loads one pool per subject
    of [subjects], in that order, and starts no session; it is then healthy.
    Each pool is exactly what [_create_sample_questions] built (the
    calibration changes nothing, as [random.uniform(0.8, 2.0)] stays within
    [[0.5, 3.0]]): it is not empty, its item ids are pairwise distinct, and
    each item belongs to the pool's subject, has [guessing = 0.1], a
    discrimination in [[0.8, 2.0]], a [correct_answer] that indexes its
    options, and no usage yet. *)
Theorem initialize_spec (uniform : nat -> R) :
  (forall n, 0.8 <= uniform n <= 2) ->
  let sv := initialize uniform new_service in
  is_healthy new_service = false /\
  is_healthy sv = true /\
  map fst (question_pools (engine sv)) = subjects /\
  active_assessments (engine sv) = [] /\
  (forall subject pool, dict_get subject (question_pools (engine sv)) = Some pool ->
     (exists draw, pool = fst (_create_sample_questions subject uniform draw)) /\
     pool <> [] /\
     NoDup (map QuestionItem.item_id pool) /\
     (forall q, In q pool ->
        QuestionItem.subject q = subject /\
        QuestionItem.guessing q = 0.1 /\
        0.8 <= QuestionItem.discrimination q <= 2 /\
        (0 <= QuestionItem.correct_answer q
         < Z.of_nat (List.length (QuestionItem.options q)))%Z /\
        QuestionItem.times_used q = 0%nat /\ QuestionItem.times_correct q = 0%nat)).
Proof.
  intros Hu; cbv zeta.
  assert (Hid : forall subject draw,
            map calibrate_item (fst (_create_sample_questions subject uniform draw))
            = fst (_create_sample_questions subject uniform draw)).
  { intros subject draw; rewrite <- map_id; apply map_ext_in; intros q Hq.
    destruct (create_sample_questions_spec subject uniform draw Hu) as (_ & _ & Hall).
    apply calibrate_item_id; pose proof (Hall q Hq); lra. }
  rewrite initialize_pools; cbn [map]; rewrite !Hid.
  split; [reflexivity | split; [reflexivity | split; [reflexivity | split; [reflexivity |]]]].
  intros subject pool Hget.
  assert (Hex : exists draw, pool = fst (_create_sample_questions subject uniform draw)).
  { cbn [dict_get] in Hget.
    destruct (String.eqb_spec subject "mathematics") as [-> | _];
      [exists 0%nat; congruence |].
    destruct (String.eqb_spec subject "python_programming") as [-> | _];
      [exists 3%nat; congruence |].
    destruct (String.eqb_spec subject "machine_learning") as [-> | _];
      [exists 8%nat; congruence |].
    destruct (String.eqb_spec subject "data_science") as [-> | _];
      [exists 10%nat; congruence | discriminate]. }
  destruct Hex as [draw ->]; split; [eauto |].
  exact (create_sample_questions_spec subject uniform draw Hu).
Qed.

Lemma initialize_spec_witness :
  (forall n : nat, 0.8 <= (fun _ : nat => 1) n <= 2) /\
  is_healthy (initialize (fun _ => 1) new_service) = true.
Proof.
  assert (Hu : forall n : nat, 0.8 <= (fun _ : nat => 1) n <= 2) by (intros; lra).
  split; [exact Hu | exact (proj1 (proj2 (initialize_spec (fun _ => 1) Hu)))].
Defined.

(** ** Creating an assessment *)

Lemma dict_set_set_same {V} (k : string) (v1 v2 : V) (d : list (string * V)) :
  dict_set k v2 (dict_set k v1 d) = dict_set k v2 d.
Proof.
  induction d as [| [k' v] d IH]; simpl.
  - now rewrite String.eqb_refl.
  - destruct (String.eqb k k') eqn:E; simpl; rewrite E; [reflexivity | now rewrite IH].
Qed.

Lemma available_questions_nil (pool : list QuestionItem.t) :
  available_questions pool [] = pool.
Proof. induction pool as [| q pool IH]; simpl; [reflexivity | now rewrite IH]. Qed.

Lemma select_best_in (ability : R) (qs : list QuestionItem.t) best m q :
  select_best ability qs best m = Some q -> best = Some q \/ In q qs.
Proof.
  revert best m; induction qs as [| q' qs IH]; intros best m; simpl; [auto |].
  destruct (Rltb m _); intros H; destruct (IH _ _ H) as [E | E]; auto.
  injection E as ->; auto.
Qed.

Lemma chosen_subject_pool (st : Engine) (subject subject' : string) :
  chosen_subject st subject = Some subject' ->
  exists pool, dict_get subject' (question_pools st) = Some pool.
Proof.
  unfold chosen_subject.
  destruct (dict_get subject (question_pools st)) as [pool |] eqn:E.
  - intros [= <-]; eauto.
  - destruct (question_pools st) as [| [first_subject pool] rest]; [discriminate |].
    intros [= <-]; exists pool; simpl; now rewrite String.eqb_refl.
Qed.

(** [create_adaptive_assessment] stores the fresh session under its id and
    hands over to [_select_next_question]. *)
Lemma create_adaptive_assessment_chosen st user_id subject user_context timestamp now
      subject' :
  chosen_subject st subject = Some subject' ->
  let assessment_id := new_assessment_id user_id timestamp in
  let st1 := set_sessions st
               (dict_set assessment_id
                  (fresh_session assessment_id user_id subject' now
                     (_get_starting_ability subject' user_context))
                  (active_assessments st)) in
  create_adaptive_assessment user_id subject user_context timestamp now st
  = match _select_next_question assessment_id st1 with
    | (st2, Ret x) => (st2, Ret (assessment_id, subject', x))
    | (st2, Raise e) => (st2, Raise e)
    end.
Proof.
  unfold chosen_subject; intros Hc; cbv zeta.
  unfold create_adaptive_assessment, put_session, bind, get, put, ret, raise.
  cbn beta iota zeta.
  destruct (dict_get subject (question_pools st)) as [pool |].
  - injection Hc as <-; cbn beta iota.
    destruct (_select_next_question _ _) as [st2 [x | e]]; reflexivity.
  - destruct (question_pools st) as [| [first_subject pool] rest]; [discriminate |].
    injection Hc as <-; cbn beta iota.
    destruct (_select_next_question _ _) as [st2 [x | e]]; reflexivity.
Qed.

Lemma question_pools_set_sessions (st : Engine) sessions :
  question_pools (set_sessions st sessions) = question_pools st.
Proof. reflexivity. Qed.

Lemma active_assessments_set_sessions (st : Engine) sessions :
  active_assessments (set_sessions st sessions) = sessions.
Proof. reflexivity. Qed.

Lemma set_sessions_twice (st : Engine) sessions1 sessions2 :
  set_sessions (set_sessions st sessions1) sessions2 = set_sessions st sessions2.
Proof. reflexivity. Qed.

Lemma select_fresh st assessment_id user_id subject now ability pool :
  dict_get subject (question_pools st) = Some pool ->
  let s := fresh_session assessment_id user_id subject now ability in
  let st1 := set_sessions st (dict_set assessment_id s (active_assessments st)) in
  (pool = [] -> _select_next_question assessment_id st1
                = (st1, Raise (ValueError "No more questions available"))) /\
  (pool <> [] -> exists q, In q pool /\
     _select_next_question assessment_id st1
     = (set_sessions st (dict_set assessment_id
                           (Session.set_questions_asked s [QuestionItem.item_id q] 1)
                           (active_assessments st)),
        Ret (1%nat, q))).
Proof.
  intros Hp; cbv zeta.
  unfold _select_next_question, get_session, get_pool, put_session, bind, get, ret, put, raise.
  cbn beta iota zeta.
  rewrite !active_assessments_set_sessions, dict_get_set_same.
  cbn beta iota zeta; rewrite !question_pools_set_sessions.
  set (s := fresh_session assessment_id user_id subject now ability).
  assert (E1 : Session.subject s = subject) by reflexivity.
  assert (E2 : Session.questions_asked s = []) by reflexivity.
  assert (E3 : Session.current_question_index s = 0%nat) by reflexivity.
  rewrite E1, E2, E3, Hp, available_questions_nil.
  split; [intros ->; reflexivity |].
  destruct pool as [| first rest]; [contradiction |]; intros _.
  cbn beta iota zeta.
  rewrite ?active_assessments_set_sessions, set_sessions_twice, dict_set_set_same.
  destruct (select_best _ (first :: rest) None 0) as [q |] eqn:Hsel.
  - exists q; split; [| reflexivity].
    destruct (select_best_in _ _ _ _ _ Hsel) as [E | E]; [discriminate | exact E].
  - exists first; split; [now left | reflexivity].
Qed.



(** [create_adaptive_assessment] raises [ValueError("No question pools
    available")] and changes nothing when there is no pool at all.  When the
    chosen subject's pool is empty it raises [ValueError("No more questions
    available")] after the fresh session was stored: that session stays in
    [active_assessments] with no item asked. *)
Theorem create_adaptive_assessment_errors st user_id subject user_context timestamp now :
  (question_pools st = [] ->
   create_adaptive_assessment user_id subject user_context timestamp now st
   = (st, Raise (ValueError "No question pools available"))) /\
  (forall subject', chosen_subject st subject = Some subject' ->
   dict_get subject' (question_pools st) = Some [] ->
   let assessment_id := new_assessment_id user_id timestamp in
   create_adaptive_assessment user_id subject user_context timestamp now st
   = (set_sessions st
        (dict_set assessment_id
           (fresh_session assessment_id user_id subject' now
              (_get_starting_ability subject' user_context))
           (active_assessments st)),
      Raise (ValueError "No more questions available"))).
Proof.
  split.
  - intros Hnil.
    unfold create_adaptive_assessment, bind, get, raise; cbn beta iota zeta.
    rewrite Hnil; reflexivity.
  - intros subject' Hc Hp; cbv zeta.
    rewrite (create_adaptive_assessment_chosen st user_id subject user_context timestamp now
               subject' Hc); cbv zeta.
    rewrite (proj1 (select_fresh st (new_assessment_id user_id timestamp) user_id subject' now
                      (_get_starting_ability subject' user_context) [] Hp) eq_refl).
    reflexivity.
Qed.

Lemma create_adaptive_assessment_errors_witness :
  let st := mkEngine 5 30 0.3 [("mathematics", [])] [] in
  (chosen_subject st "mathematics" = Some "mathematics" /\
   dict_get "mathematics" (question_pools st) = Some []) /\
  snd (create_adaptive_assessment "u" "mathematics" (mkUserContext [] None) "0" 0 st)
  = Raise (ValueError "No more questions available").
Proof.
  cbv zeta.
  assert (H1 : chosen_subject (mkEngine 5 30 0.3 [("mathematics", [])] []) "mathematics"
               = Some "mathematics") by reflexivity.
  assert (H2 : dict_get "mathematics" (question_pools (mkEngine 5 30 0.3 [("mathematics", [])] []))
               = Some []) by reflexivity.
  split; [split; [exact H1 | exact H2] |].
  rewrite (proj2 (create_adaptive_assessment_errors (mkEngine 5 30 0.3 [("mathematics", [])] [])
                    "u" "mathematics" (mkUserContext [] None) "0" 0) "mathematics" H1 H2).
  reflexivity.
Defined.

(** [get_assessment_status] is [None] exactly for an unknown id.  Right after
    a successful [create_adaptive_assessment], the new assessment's status
    reports it active, with no question completed, the starting ability, a
    precision of [1 / 2.0], and [min_questions] questions still to go. *)
Theorem assessment_status_after_create st user_id subject user_context timestamp now
        subject' pool :
  (forall k, get_assessment_status k st = None <-> dict_get k (active_assessments st) = None) /\
  (chosen_subject st subject = Some subject' ->
   dict_get subject' (question_pools st) = Some pool -> pool <> [] ->
   let assessment_id := new_assessment_id user_id timestamp in
   get_assessment_status assessment_id
     (fst (create_adaptive_assessment user_id subject user_context timestamp now st))
   = Some (mkStatus assessment_id false 0 (_get_starting_ability subject' user_context)
             (1 / 2) (min_questions st))).
Proof.
  split.
  - intros k; unfold get_assessment_status.
    destruct (dict_get k (active_assessments st)); split; congruence.
  - intros Hc Hp Hne; cbv zeta.
    rewrite (create_adaptive_assessment_chosen st user_id subject user_context timestamp now
               subject' Hc); cbv zeta.
    destruct (proj2 (select_fresh st (new_assessment_id user_id timestamp) user_id subject' now
                       (_get_starting_ability subject' user_context) pool Hp) Hne)
      as (q & _ & ->).
    unfold get_assessment_status; cbn [fst set_sessions active_assessments min_questions].
    rewrite dict_get_set_same.
    unfold Session.set_questions_asked, fresh_session.
    cbn [Session.is_complete Session.responses Session.current_ability
         Session.standard_error List.length].
    rewrite (proj2 (Rltb_true 0 2)) by lra.
    now rewrite Nat.sub_0_r.
Qed.

Lemma assessment_status_after_create_witness :
  let st := mkEngine 5 30 0.3 [("mathematics", [sample_item "mathematics_1" 0])] [] in
  (chosen_subject st "mathematics" = Some "mathematics" /\
   dict_get "mathematics" (question_pools st) = Some [sample_item "mathematics_1" 0] /\
   [sample_item "mathematics_1" 0] <> []) /\
  get_assessment_status "assessment_u_0"
    (fst (create_adaptive_assessment "u" "mathematics" (mkUserContext [] None) "0" 0 st))
  = Some (mkStatus "assessment_u_0" false 0 0 (1 / 2) 5).
Proof.
  cbv zeta.
  assert (H1 : chosen_subject
                 (mkEngine 5 30 0.3 [("mathematics", [sample_item "mathematics_1" 0])] [])
                 "mathematics" = Some "mathematics") by reflexivity.
  assert (H2 : dict_get "mathematics"
                 (question_pools
                    (mkEngine 5 30 0.3 [("mathematics", [sample_item "mathematics_1" 0])] []))
               = Some [sample_item "mathematics_1" 0]) by reflexivity.
  assert (H3 : [sample_item "mathematics_1" 0] <> []) by discriminate.
  split; [split; [exact H1 | split; [exact H2 | exact H3]] |].
  exact (proj2 (assessment_status_after_create _ "u" "mathematics" (mkUserContext [] None)
                  "0" 0 "mathematics" [sample_item "mathematics_1" 0]) H1 H2 H3).
Defined.

Lemma dict_get_none_not_key {V} (k : string) (d : list (string * V)) :
  ~ In k (map fst d) -> dict_get k d = None.
Proof.
  induction d as [| [k' v] d IH]; simpl; [reflexivity |].
  intros Hn; destruct (String.eqb_spec k k') as [-> | _]; [tauto | auto].
Qed.

(** Once initialised, the engine serves a request for any subject outside
    [subjects] (the orchestrator's default ["general"] among them) with a
    "mathematics" assessment: the first pool loaded. *)
Theorem initialize_unknown_subject (uniform : nat -> R) user_id subject user_context
        timestamp now :
  ~ In subject subjects ->
  exists q,
    snd (create_adaptive_assessment user_id subject user_context timestamp now
           (engine (initialize uniform new_service)))
    = Ret (new_assessment_id user_id timestamp, "mathematics", (1%nat, q)).
Proof.
  intros Hn.
  set (st := engine (initialize uniform new_service)).
  assert (Hkeys : map fst (question_pools st) = subjects)
    by (unfold st; rewrite initialize_pools; reflexivity).
  assert (Hc : chosen_subject st subject = Some "mathematics").
  { unfold chosen_subject; rewrite dict_get_none_not_key by (rewrite Hkeys; exact Hn).
    unfold st; rewrite initialize_pools; reflexivity. }
  set (pool := map calibrate_item (fst (_create_sample_questions "mathematics" uniform 0))).
  assert (Hp : dict_get "mathematics" (question_pools st) = Some pool)
    by (unfold st; rewrite initialize_pools; reflexivity).
  assert (Hne : pool <> []) by discriminate.
  rewrite (create_adaptive_assessment_chosen st user_id subject user_context timestamp now
             "mathematics" Hc); cbv zeta.
  destruct (proj2 (select_fresh st (new_assessment_id user_id timestamp) user_id "mathematics"
                     now (_get_starting_ability "mathematics" user_context) pool Hp) Hne)
    as (q & _ & ->).
  exists q; reflexivity.
Qed.

Lemma initialize_unknown_subject_witness :
  ~ In "general" subjects /\
  exists q,
    snd (create_adaptive_assessment "u" "general" (mkUserContext [] None) "0" 0
           (engine (initialize (fun _ => 1) new_service)))
    = Ret ("assessment_u_0", "mathematics", (1%nat, q)).
Proof.
  assert (Hn : ~ In "general" subjects) by (simpl; intuition discriminate).
  split; [exact Hn |].
  exact (initialize_unknown_subject (fun _ => 1) "u" "general" (mkUserContext [] None) "0" 0 Hn).
Defined.

(** ** No item is asked twice *)

Lemma select_next_question_available (assessment_id : string) (st : Engine) :
  (exists e, _select_next_question assessment_id st = (st, Raise e)) \/
  (exists s pool q, dict_get assessment_id (active_assessments st) = Some s /\
     dict_get (Session.subject s) (question_pools st) = Some pool /\
     In q (available_questions pool (Session.questions_asked s)) /\
     _select_next_question assessment_id st
     = (set_sessions st
          (dict_set assessment_id
             (Session.set_questions_asked s
                (Session.questions_asked s ++ [QuestionItem.item_id q])
                (S (Session.current_question_index s)))
             (active_assessments st)),
        Ret (S (Session.current_question_index s), q))).
Proof.
  unfold _select_next_question, get_session, get_pool, put_session, bind, get, ret, put, raise.
  cbn beta iota zeta.
  destruct (dict_get assessment_id (active_assessments st)) as [s |] eqn:Hs; [| left; eauto].
  destruct (dict_get (Session.subject s) (question_pools st)) as [pool |] eqn:Hp;
    [| left; eauto].
  destruct (available_questions pool (Session.questions_asked s)) as [| first rest] eqn:Ea;
    [left; eauto |].
  right.
  destruct (select_best (Session.current_ability s) (first :: rest) None 0) as [q |] eqn:Hsel.
  - exists s, pool, q; rewrite Ea; split; [reflexivity | split; [exact Hp | split]].
    + destruct (select_best_in _ _ _ _ _ Hsel) as [E | E]; [discriminate | exact E].
    + reflexivity.
  - exists s, pool, first; rewrite Ea; split; [reflexivity | split; [exact Hp | split]].
    + now left.
    + reflexivity.
Qed.

Lemma available_not_asked (pool : list QuestionItem.t) (asked : list string) q :
  In q (available_questions pool asked) -> ~ In (QuestionItem.item_id q) asked.
Proof.
  unfold available_questions; intros Hq; apply filter_In in Hq as [_ Hq].
  intros Hin; apply negb_true_iff in Hq.
  assert (existsb (String.eqb (QuestionItem.item_id q)) asked = true)
    by (apply existsb_exists; exists (QuestionItem.item_id q); split;
        [exact Hin | apply String.eqb_refl]).
  congruence.
Qed.

Lemma select_next_question_keeps_distinct (assessment_id : string) (st : Engine) :
  all_sessions asked_distinct st ->
  all_sessions asked_distinct (fst (_select_next_question assessment_id st)).
Proof.
  intros Hall.
  destruct (select_next_question_available assessment_id st)
    as [(e & ->) | (s & pool & q & Hs & _ & Hq & ->)]; [exact Hall |].
  apply all_sessions_set; [intros k' s' _; apply Hall |].
  unfold asked_distinct, Session.set_questions_asked; cbn [Session.questions_asked].
  apply NoDup_app; [exact (Hall _ _ Hs) | constructor; [intros [] | constructor] |].
  intros a Ha [<- | []]; exact (available_not_asked _ _ _ Hq Ha).
Qed.

(** [questions_asked] never holds an item id twice: no session has any
    when the engine starts, and every operation keeps it so, also when it
    raises. *)
Theorem questions_asked_distinct :
  all_sessions asked_distinct init /\
  (forall st, all_sessions asked_distinct st ->
     (forall user_id subject user_context timestamp now,
        all_sessions asked_distinct
          (fst (create_adaptive_assessment user_id subject user_context timestamp now st))) /\
     (forall assessment_id question_id selected_answer response_time now,
        all_sessions asked_distinct
          (fst (submit_answer assessment_id question_id selected_answer response_time now st))) /\
     (forall assessment_id,
        all_sessions asked_distinct (fst (_generate_assessment_report assessment_id st)))).
Proof.
  split; [intros k s H; discriminate |].
  intros st Hall; split; [| split].
  - intros user_id subject user_context timestamp now.
    destruct (create_adaptive_assessment_cases user_id subject user_context timestamp now st)
      as [(e & ->) | (subject' & a & Hfst & _)]; [exact Hall |].
    rewrite Hfst; apply select_next_question_keeps_distinct.
    apply all_sessions_set; [intros k' s' _; apply Hall | constructor].
  - intros assessment_id question_id selected_answer response_time now.
    destruct (dict_get assessment_id (active_assessments st)) as [s |] eqn:Hs.
    2: { rewrite (proj1 (submit_answer_early st assessment_id question_id selected_answer
                           response_time now ltac:(intros; congruence))); exact Hall. }
    destruct (Session.is_complete s) eqn:Hc.
    1: { rewrite (proj1 (submit_answer_early st assessment_id question_id selected_answer
                           response_time now ltac:(intros; congruence))); exact Hall. }
    destruct (dict_get (Session.subject s) (question_pools st)) as [pool |] eqn:Hp.
    2: { rewrite (proj1 (submit_answer_early st assessment_id question_id selected_answer
                           response_time now ltac:(intros; congruence))); exact Hall. }
    destruct (find_question question_id pool) as [q |] eqn:Hq.
    2: { rewrite (proj1 (submit_answer_early st assessment_id question_id selected_answer
                           response_time now ltac:(intros; congruence))); exact Hall. }
    rewrite (proj1 (submit_answer_found st assessment_id question_id selected_answer
                      response_time now s pool q Hs Hc Hp Hq)).
    assert (H2 : all_sessions asked_distinct
                   (answered_state st assessment_id question_id selected_answer
                      response_time s pool q)).
    { unfold answered_state; apply all_sessions_set.
      - intros k' s' _; rewrite statistics_state_sessions; apply Hall.
      - exact (Hall _ _ Hs). }
    destruct (_should_continue_assessment _ _).
    + now apply select_next_question_keeps_distinct.
    + apply complete_assessment_preserves; [intros s' Hs'; exact Hs' | exact H2].
  - intros assessment_id.
    destruct (generate_assessment_report_state assessment_id st) as [r ->]; exact Hall.
Qed.

(** ** Assessments have a bounded length *)

Lemma select_next_question_parameters (assessment_id : string) (st : Engine) :
  same_parameters st (fst (_select_next_question assessment_id st)).
Proof.
  destruct (select_next_question_cases assessment_id st) as [(e & ->) | (s & q & _ & ->)];
    repeat split.
Qed.

Lemma complete_assessment_parameters (assessment_id : string) (now : Z) (st : Engine) :
  same_parameters st (fst (_complete_assessment assessment_id now st)).
Proof.
  destruct (complete_assessment_cases assessment_id now st) as [-> | (s & _ & ->)];
    repeat split.
Qed.

Lemma same_parameters_trans (st1 st2 st3 : Engine) :
  same_parameters st1 st2 -> same_parameters st2 st3 -> same_parameters st1 st3.
Proof. unfold same_parameters; intros (? & ? & ?) (? & ? & ?); repeat split; congruence. Qed.

Lemma answered_state_parameters st assessment_id question_id selected_answer response_time
      s pool q :
  same_parameters st (answered_state st assessment_id question_id selected_answer
                        response_time s pool q).
Proof.
  unfold answered_state, statistics_state.
  destruct (truthy response_time); repeat split.
Qed.

Lemma should_continue_bound (st : Engine) (s : Session.t) :
  _should_continue_assessment st s = true ->
  (List.length (Session.responses s) < question_bound st)%nat.
Proof.
  unfold _should_continue_assessment, question_bound.
  destruct (Nat.ltb_spec (List.length (Session.responses s)) (min_questions st)); [lia |].
  destruct (Nat.leb_spec (max_questions st) (List.length (Session.responses s)));
    [discriminate | lia].
Qed.

(** No operation changes [min_questions], [max_questions] or
    [precision_threshold].  A session never holds more than
    [max(min_questions, max_questions)] responses, and fewer while it is
    active: this holds when the engine starts, and every operation keeps it
    (also when it raises), provided that bound is positive. *)
Theorem responses_stay_bounded :
  all_sessions (responses_bounded (question_bound init)) init /\
  (forall st, all_sessions (responses_bounded (question_bound st)) st ->
     (forall user_id subject user_context timestamp now,
        let st' := fst (create_adaptive_assessment user_id subject user_context timestamp
                          now st) in
        same_parameters st st' /\
        ((0 < question_bound st)%nat -> all_sessions (responses_bounded (question_bound st)) st'))
     /\
     (forall assessment_id question_id selected_answer response_time now,
        let st' := fst (submit_answer assessment_id question_id selected_answer
                          response_time now st) in
        same_parameters st st' /\ all_sessions (responses_bounded (question_bound st)) st') /\
     (forall assessment_id,
        let st' := fst (_generate_assessment_report assessment_id st) in
        same_parameters st st' /\ all_sessions (responses_bounded (question_bound st)) st')).
Proof.
  assert (Hsel : forall B s asked index, responses_bounded B s ->
                 responses_bounded B (Session.set_questions_asked s asked index))
    by (intros; exact H).
  split; [intros k s H; discriminate |].
  intros st Hall; split; [| split].
  - intros user_id subject user_context timestamp now; cbv zeta.
    destruct (create_adaptive_assessment_cases user_id subject user_context timestamp now st)
      as [(e & ->) | (subject' & a & Hfst & _)]; [split; [repeat split | intros; exact Hall] |].
    rewrite Hfst; split.
    + eapply same_parameters_trans; [| apply select_next_question_parameters]; repeat split.
    + intros Hpos; apply select_next_question_preserves; [apply Hsel |].
      apply all_sessions_set; [intros k' s' _; apply Hall |].
      unfold responses_bounded; simpl; exact Hpos.
  - intros assessment_id question_id selected_answer response_time now; cbv zeta.
    destruct (dict_get assessment_id (active_assessments st)) as [s |] eqn:Hs.
    2: { rewrite (proj1 (submit_answer_early st assessment_id question_id selected_answer
                           response_time now ltac:(intros; congruence)));
         split; [repeat split | exact Hall]. }
    destruct (Session.is_complete s) eqn:Hc.
    1: { rewrite (proj1 (submit_answer_early st assessment_id question_id selected_answer
                           response_time now ltac:(intros; congruence)));
         split; [repeat split | exact Hall]. }
    destruct (dict_get (Session.subject s) (question_pools st)) as [pool |] eqn:Hp.
    2: { rewrite (proj1 (submit_answer_early st assessment_id question_id selected_answer
                           response_time now ltac:(intros; congruence)));
         split; [repeat split | exact Hall]. }
    destruct (find_question question_id pool) as [q |] eqn:Hq.
    2: { rewrite (proj1 (submit_answer_early st assessment_id question_id selected_answer
                           response_time now ltac:(intros; congruence)));
         split; [repeat split | exact Hall]. }
    rewrite (proj1 (submit_answer_found st assessment_id question_id selected_answer
                      response_time now s pool q Hs Hc Hp Hq)).
    set (st2 := answered_state st assessment_id question_id selected_answer response_time
                  s pool q).
    set (s2 := answered_session s q (Z.eqb selected_answer (QuestionItem.correct_answer q))).
    assert (Hpar2 : same_parameters st st2) by apply answered_state_parameters.
    assert (HB : question_bound st2 = question_bound st).
    { unfold question_bound; destruct Hpar2 as (-> & -> & _); reflexivity. }
    assert (Hlen : List.length (Session.responses s2) = S (List.length (Session.responses s))).
    { unfold s2, answered_session; simpl; rewrite length_app; simpl; lia. }
    assert (Hact : Session.is_complete s2 = false) by (unfold s2; simpl; exact Hc).
    pose proof (Hall _ _ Hs) as Hb; unfold responses_bounded in Hb; rewrite Hc in Hb.
    assert (Hother : forall k' s', k' <> assessment_id ->
              dict_get k' (active_assessments st2) = Some s' ->
              responses_bounded (question_bound st) s').
    { intros k' s' Hne; unfold st2, answered_state; simpl.
      rewrite dict_get_set_other, statistics_state_sessions by exact Hne; apply Hall. }
    destruct (_should_continue_assessment st2 s2) eqn:Hcont.
    + split; [eapply same_parameters_trans; [exact Hpar2 | apply select_next_question_parameters] |].
      apply select_next_question_preserves; [apply Hsel |].
      intros k' s'; destruct (String.eqb_spec k' assessment_id) as [-> | Hne].
      * unfold st2, answered_state; simpl; rewrite dict_get_set_same; intros [= <-].
        fold s2; unfold responses_bounded; rewrite Hact.
        rewrite <- HB; exact (should_continue_bound st2 s2 Hcont).
      * now apply Hother.
    + split; [eapply same_parameters_trans; [exact Hpar2 | apply complete_assessment_parameters] |].
      rewrite (complete_assessment_found assessment_id now st2 s2)
        by (unfold st2, answered_state; simpl; apply dict_get_set_same).
      apply all_sessions_set.
      * intros k' s' Hne; unfold st2, answered_state; simpl.
        rewrite dict_get_set_other by exact Hne; intros Hk'.
        rewrite statistics_state_sessions in Hk'; exact (Hall _ _ Hk').
      * unfold responses_bounded, Session.set_complete; cbn [Session.is_complete Session.responses].
        rewrite Hlen; lia.
  - intros assessment_id; cbv zeta.
    destruct (generate_assessment_report_state assessment_id st) as [r ->].
    split; [repeat split | exact Hall].
Qed.

(** ** Question pools: only usage statistics change *)

Lemma select_next_question_pools (assessment_id : string) (st : Engine) :
  question_pools (fst (_select_next_question assessment_id st)) = question_pools st.
Proof.
  destruct (select_next_question_cases assessment_id st) as [(e & ->) | (s & q & _ & ->)];
    reflexivity.
Qed.

Lemma complete_assessment_pools (assessment_id : string) (now : Z) (st : Engine) :
  question_pools (fst (_complete_assessment assessment_id now st)) = question_pools st.
Proof.
  destruct (complete_assessment_cases assessment_id now st) as [-> | (s & _ & ->)];
    reflexivity.
Qed.

Lemma create_adaptive_assessment_pools user_id subject user_context timestamp now st :
  question_pools (fst (create_adaptive_assessment user_id subject user_context timestamp now st))
  = question_pools st.
Proof.
  destruct (create_adaptive_assessment_cases user_id subject user_context timestamp now st)
    as [(e & ->) | (subject' & a & -> & _)]; [reflexivity |].
  now rewrite select_next_question_pools.
Qed.

Lemma strip_update_statistics (q : QuestionItem.t) (correct : bool) (t : R) :
  strip_statistics (QuestionItem.update_statistics q correct t) = strip_statistics q.
Proof. destruct q; reflexivity. Qed.

Lemma update_statistics_consistent (q : QuestionItem.t) (correct : bool) (t : R) :
  statistics_consistent q -> statistics_consistent (QuestionItem.update_statistics q correct t).
Proof.
  unfold statistics_consistent, QuestionItem.update_statistics; cbn.
  destruct correct; lia.
Qed.

Lemma replace_first_strip (question_id : string) (q q' : QuestionItem.t) pool :
  find_question question_id pool = Some q -> strip_statistics q' = strip_statistics q ->
  map strip_statistics (replace_first question_id q' pool) = map strip_statistics pool.
Proof.
  intros Hq Hs; induction pool as [| q0 pool IH]; [discriminate |].
  unfold find_question in Hq; simpl in Hq |- *.
  destruct (String.eqb (QuestionItem.item_id q0) question_id).
  - injection Hq as ->; simpl; now rewrite Hs.
  - simpl; now rewrite IH.
Qed.

Lemma replace_first_in (question_id : string) (q' x : QuestionItem.t) pool :
  In x (replace_first question_id q' pool) -> In x pool \/ x = q'.
Proof.
  induction pool as [| q0 pool IH]; simpl; [tauto |].
  destruct (String.eqb (QuestionItem.item_id q0) question_id); simpl; [intros [<- | H]; auto |].
  intros [<- | H]; [auto | destruct (IH H); auto].
Qed.

Lemma map_values_dict_set {V W} (f : V -> W) (k : string) (v v' : V) d :
  dict_get k d = Some v -> f v' = f v ->
  map (fun '(k', x) => (k', f x)) (dict_set k v' d) = map (fun '(k', x) => (k', f x)) d.
Proof.
  intros Hk Hf; induction d as [| [k0 v0] d IH]; [discriminate |].
  simpl in Hk |- *; destruct (String.eqb k k0).
  - injection Hk as ->; simpl; now rewrite Hf.
  - simpl; now rewrite IH.
Qed.

Lemma submit_answer_pool_cases (st : Engine) assessment_id question_id selected_answer
    response_time now :
  question_pools (fst (submit_answer assessment_id question_id selected_answer
                         response_time now st)) = question_pools st \/
  exists subject pool q correct t,
    dict_get subject (question_pools st) = Some pool /\
    find_question question_id pool = Some q /\
    question_pools (fst (submit_answer assessment_id question_id selected_answer
                           response_time now st))
    = dict_set subject (replace_first question_id (QuestionItem.update_statistics q correct t)
                          pool) (question_pools st).
Proof.
  destruct (dict_get assessment_id (active_assessments st)) as [s |] eqn:Hs.
  2: { left; now rewrite (proj1 (submit_answer_early st assessment_id question_id
                                    selected_answer response_time now ltac:(intros; congruence))). }
  destruct (Session.is_complete s) eqn:Hc.
  1: { left; now rewrite (proj1 (submit_answer_early st assessment_id question_id
                                    selected_answer response_time now ltac:(intros; congruence))). }
  destruct (dict_get (Session.subject s) (question_pools st)) as [pool |] eqn:Hp.
  2: { left; now rewrite (proj1 (submit_answer_early st assessment_id question_id
                                    selected_answer response_time now ltac:(intros; congruence))). }
  destruct (find_question question_id pool) as [q |] eqn:Hq.
  2: { left; now rewrite (proj1 (submit_answer_early st assessment_id question_id
                                    selected_answer response_time now ltac:(intros; congruence))). }
  rewrite (submit_answer_pools st assessment_id question_id selected_answer response_time now
             s pool q Hs Hc Hp Hq).
  unfold statistics_state; destruct (truthy response_time) as [t |]; [right | left; reflexivity].
  exists (Session.subject s), pool, q, (Z.eqb selected_answer (QuestionItem.correct_answer q)), t.
  repeat split; assumption.
Qed.

(** The question pools are never restructured by an assessment: creating
    an assessment and generating a report leave them as they are, and
    submitting an answer changes nothing but the usage statistics of items.
    No item ever has more correct answers recorded than uses, from the
    start of the engine and through these operations and [_calibrate_items]. *)
Theorem question_pools_only_statistics_change :
  all_items statistics_consistent init /\
  (forall st,
     (forall user_id subject user_context timestamp now,
        question_pools (fst (create_adaptive_assessment user_id subject user_context timestamp
                               now st)) = question_pools st) /\
     (forall assessment_id,
        question_pools (fst (_generate_assessment_report assessment_id st)) = question_pools st) /\
     (forall assessment_id question_id selected_answer response_time now,
        let st' := fst (submit_answer assessment_id question_id selected_answer response_time
                          now st) in
        pool_contents st' = pool_contents st /\
        (all_items statistics_consistent st -> all_items statistics_consistent st')) /\
     (all_items statistics_consistent st ->
        all_items statistics_consistent (_calibrate_items st))).
Proof.
  split; [intros subject pool q H; discriminate |].
  intros st; split; [| split; [| split]].
  - intros; apply create_adaptive_assessment_pools.
  - intros assessment_id; destruct (generate_assessment_report_state assessment_id st) as [r ->];
      reflexivity.
  - intros assessment_id question_id selected_answer response_time now; cbv zeta.
    destruct (submit_answer_pool_cases st assessment_id question_id selected_answer
                response_time now) as [Heq | (subject & pool & q & correct & t & Hp & Hq & Heq)];
      unfold pool_contents, all_items; rewrite Heq; [split; auto |].
    split.
    + apply (map_values_dict_set _ _ pool); [exact Hp |].
      apply replace_first_strip with q; [exact Hq | apply strip_update_statistics].
    + intros Hall subject' pool' q'; rewrite dict_get_set.
      destruct (String.eqb_spec subject' subject) as [-> | Hne]; [| apply Hall].
      intros [= <-] Hin; destruct (replace_first_in _ _ _ _ Hin) as [Hin' | ->].
      * exact (Hall _ _ _ Hp Hin').
      * apply update_statistics_consistent, (Hall _ _ _ Hp).
        unfold find_question in Hq; exact (proj1 (find_some _ _ Hq)).
  - intros Hall subject pool q; unfold _calibrate_items, set_pools; cbn [question_pools].
    rewrite dict_get_map_values.
    destruct (dict_get subject (question_pools st)) as [pool0 |] eqn:Hp; [| discriminate].
    intros [= <-] Hin; apply in_map_iff in Hin as (q0 & <- & Hin).
    exact (Hall _ _ _ Hp Hin).
Qed.

(** ** submit_answer: lookups that fail *)

(** [submit_answer] raises before changing anything when the session is
    unknown ([ValueError]), when the pool of the session's subject is missing
    ([KeyError] on the subject) or when the item is not in that pool
    ([ValueError]). *)
Theorem submit_answer_lookup_errors (st : Engine) assessment_id question_id selected_answer
    response_time now :
  (dict_get assessment_id (active_assessments st) = None ->
   submit_answer assessment_id question_id selected_answer response_time now st
   = (st, Raise (ValueError "Assessment session not found"))) /\
  (forall s, dict_get assessment_id (active_assessments st) = Some s ->
   Session.is_complete s = false ->
   dict_get (Session.subject s) (question_pools st) = None ->
   submit_answer assessment_id question_id selected_answer response_time now st
   = (st, Raise (KeyError (Session.subject s)))) /\
  (forall s pool, dict_get assessment_id (active_assessments st) = Some s ->
   Session.is_complete s = false ->
   dict_get (Session.subject s) (question_pools st) = Some pool ->
   (forall q, In q pool -> QuestionItem.item_id q <> question_id) ->
   submit_answer assessment_id question_id selected_answer response_time now st
   = (st, Raise (ValueError "Question not found"))).
Proof.
  unfold submit_answer, get_session, get_pool, bind, get, ret, raise; cbn beta iota zeta.
  split; [| split].
  - now intros ->.
  - intros s Hs Hc Hp; now rewrite Hs, Hc, Hp.
  - intros s pool Hs Hc Hp Hnot; rewrite Hs, Hc, Hp.
    destruct (find_question question_id pool) as [q |] eqn:Hq; [| reflexivity].
    unfold find_question in Hq; destruct (find_some _ _ Hq) as [Hin Heq].
    apply String.eqb_eq in Heq; exfalso; exact (Hnot q Hin Heq).
Qed.

(** ** The assessment report *)

Lemma generate_assessment_report_result (assessment_id : string) (st : Engine) :
  snd (_generate_assessment_report assessment_id st)
  = match dict_get assessment_id (active_assessments st) with
    | None => Ret ReportEmpty
    | Some s => match report_body st assessment_id s with
                | None => Ret ReportError
                | Some r => Ret (ReportOk r)
                end
    end.
Proof.
  unfold _generate_assessment_report, bind, get, ret; cbn.
  destruct (dict_get assessment_id (active_assessments st)); [destruct report_body |];
    reflexivity.
Qed.

Lemma count_correct_le (rs : list Response) : (count_correct rs <= List.length rs)%nat.
Proof.
  unfold count_correct; induction rs as [| [[d c] a] rs IH]; simpl; [lia |].
  destruct c; simpl; lia.
Qed.

Lemma dict_set_topic_sums (k : string) (c t : nat) (acc : list (string * (nat * nat))) :
  let old := match dict_get k acc with Some ct => ct | None => (0%nat, 0%nat) end in
  (topic_totals (dict_set k (c, t) acc) + snd old = topic_totals acc + t)%nat /\
  (topic_corrects (dict_set k (c, t) acc) + fst old = topic_corrects acc + c)%nat.
Proof.
  induction acc as [| [k0 [c0 t0]] acc IH]; cbv zeta; simpl; [lia |].
  destruct (String.eqb k k0); simpl; [lia |].
  cbv zeta in IH; destruct (dict_get k acc) as [[c1 t1] |]; simpl in IH |- *; lia.
Qed.

Lemma in_dict_set {V} (k k' : string) (v v' : V) (d : list (string * V)) :
  In (k', v') (dict_set k v d) -> (k', v') = (k, v) \/ In (k', v') d.
Proof.
  induction d as [| [k0 v0] d IH]; simpl; [intuition |].
  destruct (String.eqb_spec k k0) as [-> | Hne]; simpl; [intuition |].
  intros [H | H]; [auto | destruct (IH H); auto].
Qed.

Lemma keys_dict_set {V} (k k' : string) (v : V) (d : list (string * V)) :
  In k' (map fst (dict_set k v d)) -> k' = k \/ In k' (map fst d).
Proof.
  induction d as [| [k0 v0] d IH]; simpl; [intuition |].
  destruct (String.eqb_spec k k0) as [-> | Hne]; simpl; [intuition |].
  intros [H | H]; [auto | destruct (IH H); auto].
Qed.

Lemma nodup_keys_dict_set {V} (k : string) (v : V) (d : list (string * V)) :
  NoDup (map fst d) -> NoDup (map fst (dict_set k v d)).
Proof.
  induction d as [| [k0 v0] d IH]; simpl; intros Hnd.
  - constructor; [intros [] | constructor].
  - inversion Hnd as [| ? ? Hnot Hnd']; subst.
    destruct (String.eqb_spec k k0) as [-> | Hne]; simpl; constructor; auto.
    intros Hin; destruct (keys_dict_set _ _ _ _ Hin) as [-> | H]; [congruence | tauto].
Qed.

(** The per-topic loop keeps one entry per topic with [correct <= total], and
    adds at most one answer per response. *)
Lemma topic_loop_spec pool asked (rs : list Response) (i : nat) acc acc' :
  topic_loop pool asked rs i acc = Some acc' ->
  NoDup (map fst acc) ->
  (forall topic c t, In (topic, (c, t)) acc -> (c <= t)%nat) ->
  NoDup (map fst acc') /\
  (forall topic c t, In (topic, (c, t)) acc' -> (c <= t)%nat) /\
  (topic_totals acc' <= topic_totals acc + List.length rs)%nat /\
  (topic_corrects acc' <= topic_corrects acc + count_correct rs)%nat.
Proof.
  revert i acc; induction rs as [| [[d correct] a] rs IH]; intros i acc Hloop Hnd Hle.
  - simpl in Hloop; injection Hloop as <-; repeat split; auto; lia.
  - simpl in Hloop.
    destruct (nth_error asked i) as [question_id |]; [| discriminate].
    destruct pool as [qs |]; [| discriminate].
    destruct (find (fun q => String.eqb (QuestionItem.item_id q) question_id) qs) as [q |].
    2: { destruct (IH _ _ Hloop Hnd Hle) as (H1 & H2 & H3 & H4).
         unfold count_correct in *; simpl; destruct correct; simpl; repeat split; auto; lia. }
    pose proof (fun c t => dict_set_topic_sums (QuestionItem.topic q) c t acc) as Hsum.
    destruct (dict_get (QuestionItem.topic q) acc) as [[c0 t0] |] eqn:Hget; cbv zeta in Hsum;
      simpl in Hsum.
    + assert (Hc0 : (c0 <= t0)%nat).
      { clear - Hget Hle; induction acc as [| [k [c t]] acc IHa]; [discriminate |].
        simpl in Hget; destruct (String.eqb _ k); [injection Hget as <- <-; eapply Hle; left; reflexivity |].
        apply IHa; [exact Hget |]; intros; eapply Hle; right; eassumption. }
      edestruct (IH _ _ Hloop) as (H1 & H2 & H3 & H4).
      * now apply nodup_keys_dict_set.
      * intros topic c t Hin; destruct (in_dict_set _ _ _ _ _ Hin) as [[= -> -> ->] | Hin'].
        -- destruct correct; lia.
        -- exact (Hle _ _ _ Hin').
      * destruct (Hsum (if correct then S c0 else c0) (S t0)) as [Ht Hc].
        unfold count_correct in *; simpl; destruct correct; simpl in *; repeat split; auto; lia.
    + edestruct (IH _ _ Hloop) as (H1 & H2 & H3 & H4).
      * now apply nodup_keys_dict_set.
      * intros topic c t Hin; destruct (in_dict_set _ _ _ _ _ Hin) as [[= -> -> ->] | Hin'].
        -- destruct correct; lia.
        -- exact (Hle _ _ _ Hin').
      * destruct (Hsum (if correct then 1%nat else 0%nat) 1%nat) as [Ht Hc].
        unfold count_correct in *; simpl; destruct correct; simpl in *; repeat split; auto; lia.
Qed.

Lemma recommendations_length (s : Session.t) (accuracy : R) :
  py_div (INR (count_correct (Session.responses s))) (INR (List.length (Session.responses s)))
  = Some accuracy ->
  List.length (_generate_learning_recommendations s)
  = (if Rltb accuracy 0.7 then 4 else 3)%nat.
Proof.
  intros H; unfold _generate_learning_recommendations; rewrite H.
  destruct (Rltb (Session.current_ability s) (-1)); [| destruct (Rltb (Session.current_ability s) 0.5)];
    rewrite length_app; destruct (Rltb accuracy 0.7); reflexivity.
Qed.

(** [_generate_assessment_report] returns [{}] for an unknown session and the
    error dict for a session without responses.  A report it returns counts
    every response of the session, at least one, with at most as many correct
    ones; its accuracy lies in [[0, 100]]; its topic breakdown has one entry
    per topic, no topic with more correct answers than answers, and no more
    answers or correct answers in total than the report; and it carries four
    recommendations when the accuracy is below 70 percent, three otherwise. *)
Theorem generate_assessment_report_spec (st : Engine) (assessment_id : string) :
  (dict_get assessment_id (active_assessments st) = None ->
   snd (_generate_assessment_report assessment_id st) = Ret ReportEmpty) /\
  (forall s, dict_get assessment_id (active_assessments st) = Some s ->
   Session.responses s = [] ->
   snd (_generate_assessment_report assessment_id st) = Ret ReportError) /\
  (forall r, snd (_generate_assessment_report assessment_id st) = Ret (ReportOk r) ->
   exists s, dict_get assessment_id (active_assessments st) = Some s /\
   Report.total_questions r = List.length (Session.responses s) /\
   (0 < Report.total_questions r)%nat /\
   Report.correct_answers r = count_correct (Session.responses s) /\
   (Report.correct_answers r <= Report.total_questions r)%nat /\
   0 <= Report.accuracy_percentage r <= 100 /\
   Report.final_ability_estimate r = Session.current_ability s /\
   Report.precision r = 1 / Session.standard_error s /\
   Report.proficiency_level r = proficiency_level (Session.current_ability s) /\
   NoDup (map fst (Report.topic_breakdown r)) /\
   (forall topic c t, In (topic, (c, t)) (Report.topic_breakdown r) -> (c <= t)%nat) /\
   (topic_totals (Report.topic_breakdown r) <= Report.total_questions r)%nat /\
   (topic_corrects (Report.topic_breakdown r) <= Report.correct_answers r)%nat /\
   List.length (Report.recommendations r)
   = (if Rltb (Report.accuracy_percentage r) 70 then 4 else 3)%nat).
Proof.
  rewrite generate_assessment_report_result; split; [| split].
  - now intros ->.
  - intros s Hs Hnil; rewrite Hs; unfold report_body; rewrite Hnil.
    simpl topic_loop; cbv iota.
    destruct (py_div 1 (Session.standard_error s)); [| reflexivity].
    unfold py_div; simpl INR; destruct (Req_dec_T 0 0) as [_ | []]; reflexivity.
  - intros r; destruct (dict_get assessment_id (active_assessments st)) as [s |] eqn:Hs;
      [| discriminate].
    unfold report_body.
    destruct (topic_loop _ _ _ 0 []) as [tp |] eqn:Hloop; [| discriminate].
    destruct (py_div 1 (Session.standard_error s)) as [precision |] eqn:Hprec; [| discriminate].
    destruct (py_div (INR (count_correct (Session.responses s)))
                (INR (List.length (Session.responses s)))) as [accuracy |] eqn:Hacc;
      [| discriminate].
    intros [= <-]; exists s; cbn [Report.total_questions Report.correct_answers
      Report.accuracy_percentage Report.final_ability_estimate Report.precision
      Report.proficiency_level Report.topic_breakdown Report.recommendations].
    destruct (topic_loop_spec _ _ _ _ _ _ Hloop ltac:(constructor) ltac:(intros ? ? ? []))
      as (H1 & H2 & H3 & H4); simpl in H3, H4.
    pose proof (count_correct_le (Session.responses s)) as Hle.
    unfold py_div in Hprec, Hacc.
    destruct (Req_dec_T (Session.standard_error s) 0); [discriminate |].
    destruct (Req_dec_T (INR (List.length (Session.responses s))) 0) as [Hz | Hnz];
      [discriminate |].
    injection Hprec as <-; injection Hacc as <-.
    assert (Hpos : (0 < List.length (Session.responses s))%nat).
    { destruct (Session.responses s); [simpl in Hnz; lra | simpl; lia]. }
    assert (Hy : 0 < INR (List.length (Session.responses s))) by (apply lt_0_INR; exact Hpos).
    assert (Hx : 0 <= INR (count_correct (Session.responses s))) by apply pos_INR.
    assert (Hxy : INR (count_correct (Session.responses s))
                  <= INR (List.length (Session.responses s))) by (apply le_INR; exact Hle).
    set (x := INR (count_correct (Session.responses s))) in *.
    set (y := INR (List.length (Session.responses s))) in *.
    assert (Hinv : y * / y = 1) by (field; lra).
    assert (Hinvpos : 0 < / y) by (apply Rinv_0_lt_compat; exact Hy).
    do 10 (split; [first [reflexivity | lia | assumption | unfold Rdiv; split; nra] |]).
    do 3 (split; [assumption |]).
    rewrite (recommendations_length s (x / y))
      by (unfold py_div; fold x y; destruct (Req_dec_T y 0); [lra | reflexivity]).
    destruct (Rltb (x / y) 0.7) eqn:E1, (Rltb (x / y * 100) 70) eqn:E2; try reflexivity;
      [apply Rltb_true in E1; apply Rltb_false in E2 | apply Rltb_false in E1; apply Rltb_true in E2];
      lra.
Qed.

(** ** Fisher information of an item *)

(** [information_function] computes [a^2 P (1 - P) / (1 - c)^2] whenever
    [c < P < 1], and never exceeds [a^2 / (4 (1 - c)^2)], for [P] the 3PL
    probability, [a] the discrimination and [c] the guessing parameter. *)
Theorem information_function_bound (ability difficulty discrimination guessing : R) :
  let p := probability_correct ability difficulty discrimination guessing in
  (guessing < p < 1 ->
   information_function ability difficulty discrimination guessing
   = discrimination ^ 2 * p * (1 - p) / (1 - guessing) ^ 2) /\
  information_function ability difficulty discrimination guessing
  <= discrimination ^ 2 / (4 * (1 - guessing) ^ 2).
Proof.
  intros p.
  assert (Hrhs : 0 <= discrimination ^ 2 / (4 * (1 - guessing) ^ 2)).
  { destruct (Req_dec (1 - guessing) 0) as [Hz | Hnz].
    - rewrite Hz; unfold Rdiv; replace (4 * 0 ^ 2) with 0 by ring; rewrite Rinv_0; lra.
    - unfold Rdiv; apply Rmult_le_pos; [apply pow2_ge_0 |].
      left; apply Rinv_0_lt_compat; assert (0 < (1 - guessing) ^ 2).
      { destruct (pow2_ge_0 (1 - guessing)) as [h | h]; [exact h |].
        exfalso; exact (pow_nonzero _ 2 Hnz (eq_sym h)). }
      lra. }
  unfold information_function; fold p.
  destruct (Rleb p guessing) eqn:E1; [split; [intros; apply Rleb_true in E1; lra | exact Hrhs] |].
  destruct (Rleb 1 p) eqn:E2; [split; [intros; apply Rleb_true in E2; lra | exact Hrhs] |].
  destruct (Rleb (1 - p) 0) eqn:E3; [split; [intros; apply Rleb_true in E3; lra | exact Hrhs] |].
  apply Rleb_false in E1, E2, E3; cbn [orb].
  assert (Hg : 0 < 1 - guessing) by lra.
  unfold py_div; destruct (Req_dec_T (1 - guessing) 0) as [Hz | _]; [lra |].
  destruct (Req_dec_T (p * (1 - p)) 0) as [Hpq | Hpq].
  - split; [| exact Hrhs].
    intros _.
    replace (discrimination ^ 2 * p * (1 - p)) with (discrimination ^ 2 * (p * (1 - p)))
      by ring.
    rewrite Hpq; unfold Rdiv; ring.
  - assert (Hp0 : p <> 0) by (intros Hp0; apply Hpq; rewrite Hp0; ring).
    assert (Hq0 : 1 - p <> 0) by lra.
    assert (Hg0 : 1 - guessing <> 0) by lra.
    assert (Heq : (discrimination * p * (1 - p) / (1 - guessing)) ^ 2 / (p * (1 - p))
                  = discrimination ^ 2 * p * (1 - p) / (1 - guessing) ^ 2) by (field; auto).
    rewrite Heq; split; [reflexivity |].
    assert (Hq : p * (1 - p) <= 1 / 4) by (pose proof (pow2_ge_0 (p - 1 / 2)); nra).
    assert (Hk : 0 <= discrimination ^ 2 / (1 - guessing) ^ 2).
    { unfold Rdiv; apply Rmult_le_pos; [apply pow2_ge_0 |].
      left; apply Rinv_0_lt_compat, pow_lt, Hg. }
    replace (discrimination ^ 2 * p * (1 - p) / (1 - guessing) ^ 2)
      with (discrimination ^ 2 / (1 - guessing) ^ 2 * (p * (1 - p))) by (field; lra).
    replace (discrimination ^ 2 / (4 * (1 - guessing) ^ 2))
      with (discrimination ^ 2 / (1 - guessing) ^ 2 * (1 / 4)) by (field; lra).
    apply Rmult_le_compat_l; assumption.
Qed.

(** ** Proficiency level against recommendations *)

(** The report's proficiency level and its recommendations use different
    thresholds: for a final ability in [[-1.5, -1)] with at least one
    response, the level is "Intermediate" while the first recommendation is
    the first one of the beginner set. *)
Theorem level_recommendation_mismatch (s : Session.t) :
  -1.5 <= Session.current_ability s < -1 -> Session.responses s <> [] ->
  proficiency_level (Session.current_ability s) = "Intermediate" /\
  hd_error (_generate_learning_recommendations s)
  = Some "Start with foundational concepts and basic exercises".
Proof.
  intros Hab Hrs; split.
  - unfold proficiency_level.
    destruct (Rltb (Session.current_ability s) (-1.5)) eqn:E1;
      [apply Rltb_true in E1; lra |].
    destruct (Rltb (Session.current_ability s) 0.5) eqn:E2; [reflexivity |].
    apply Rltb_false in E2; lra.
  - unfold _generate_learning_recommendations.
    destruct (py_div _ _) as [accuracy |] eqn:Hdiv.
    + destruct (Rltb (Session.current_ability s) (-1)) eqn:E; [reflexivity |].
      apply Rltb_false in E; lra.
    + unfold py_div in Hdiv; destruct (Req_dec_T _ 0) as [Hz | ]; [| discriminate].
      destruct (Session.responses s) as [| r l]; [congruence |].
      exfalso; apply (not_0_INR (List.length (r :: l))); [simpl; lia | exact Hz].
Qed.

Lemma level_recommendation_mismatch_witness :
  let s := Session.mk "a" "u" "mathematics" 0 None (-1.2) 0.8
             [(0, false, 1)] ["mathematics_1"] 1 true in
  (-1.5 <= Session.current_ability s < -1 /\ Session.responses s <> []) /\
  proficiency_level (Session.current_ability s) = "Intermediate" /\
  hd_error (_generate_learning_recommendations s)
  = Some "Start with foundational concepts and basic exercises".
Proof.
  intros s; split; [split; [simpl; lra | discriminate] |].
  apply level_recommendation_mismatch; [simpl; lra | discriminate].
Defined.

(** ** The status of an assessment after an answer *)

Lemma submit_answer_found_value (st : Engine) assessment_id question_id selected_answer
    response_time now s pool q :
  dict_get assessment_id (active_assessments st) = Some s ->
  Session.is_complete s = false ->
  dict_get (Session.subject s) (question_pools st) = Some pool ->
  find_question question_id pool = Some q ->
  let correct := Z.eqb selected_answer (QuestionItem.correct_answer q) in
  let st2 := answered_state st assessment_id question_id selected_answer response_time s pool q in
  let s2 := answered_session s q correct in
  let respond := SubmitResponse.mk correct (QuestionItem.correct_answer q)
                   (Session.current_ability s2)
                   (if Rltb 0 (Session.standard_error s2)
                    then 1 / Session.standard_error s2 else 0)
                   (List.length (Session.responses s2)) in
  snd (submit_answer assessment_id question_id selected_answer response_time now st)
  = if _should_continue_assessment st2 s2
    then match snd (_select_next_question assessment_id st2) with
         | Ret x => Ret (respond (NextQuestion (fst x) (snd x)))
         | Raise e => Raise e
         end
    else match snd (_generate_assessment_report assessment_id
                      (fst (_complete_assessment assessment_id now st2))) with
         | Ret r => Ret (respond (FinalResults r))
         | Raise e => Raise e
         end.
Proof.
  intros Hs Hc Hp Hq; cbv zeta.
  unfold submit_answer, get_session, get_pool, bind, get, ret, raise; cbn beta iota zeta.
  rewrite Hs, Hc, Hp, Hq.
  set (correct := Z.eqb selected_answer (QuestionItem.correct_answer q)).
  assert (Hst1 : forall k : unit -> M SubmitResponse.t,
    bind (match truthy response_time with
          | Some t => put_question (Session.subject s) question_id
                        (QuestionItem.update_statistics q correct t)
          | None => ret tt
          end) k st
    = k tt (statistics_state st (Session.subject s) question_id pool q correct response_time)).
  { intros k; unfold statistics_state, put_question, get_pool, bind, get, put, ret.
    destruct (truthy response_time); cbn beta iota zeta; [rewrite Hp |]; reflexivity. }
  unfold bind at 1 in Hst1; rewrite Hst1; clear Hst1.
  unfold answered_state, answered_session; cbv zeta; fold correct.
  destruct (estimate_ability _ _) as [new_ability standard_error]; cbn [fst snd].
  unfold put_session, bind, get, put, ret; cbn beta iota zeta.
  destruct (_should_continue_assessment _ _).
  - destruct (_select_next_question _ _) as [st3 [x | e]]; reflexivity.
  - rewrite complete_assessment_ret; cbn beta iota zeta; cbn [fst].
    match goal with
    | |- context [_generate_assessment_report ?i ?x] =>
        destruct (generate_assessment_report_state i x) as [r Hr]; rewrite Hr
    end.
    reflexivity.
Qed.

(** Once [submit_answer] returns a response, [get_assessment_status] agrees
    with it: the assessment, active before, has one more completed question,
    the status shows the response's ability estimate and precision, and it
    is complete exactly when the response carries the final results. *)
Theorem submit_answer_status_agrees (st : Engine) assessment_id question_id selected_answer
    response_time now (response : SubmitResponse.t) :
  snd (submit_answer assessment_id question_id selected_answer response_time now st)
  = Ret response ->
  exists before,
    get_assessment_status assessment_id st = Some before /\
    status_is_complete before = false /\
    SubmitResponse.questions_completed response = S (questions_completed before) /\
    get_assessment_status assessment_id
      (fst (submit_answer assessment_id question_id selected_answer response_time now st))
    = Some (mkStatus assessment_id (is_final (SubmitResponse.next_step response))
              (SubmitResponse.questions_completed response)
              (SubmitResponse.current_ability_estimate response)
              (SubmitResponse.precision response)
              (min_questions st - SubmitResponse.questions_completed response)).
Proof.
  intros Hret.
  assert (Hfound : exists s pool q, dict_get assessment_id (active_assessments st) = Some s /\
            Session.is_complete s = false /\
            dict_get (Session.subject s) (question_pools st) = Some pool /\
            find_question question_id pool = Some q).
  { destruct (dict_get assessment_id (active_assessments st)) as [s |] eqn:Hs;
      [destruct (Session.is_complete s) eqn:Hc;
       [| destruct (dict_get (Session.subject s) (question_pools st)) as [pool |] eqn:Hp;
          [destruct (find_question question_id pool) as [q |] eqn:Hq;
           [now exists s, pool, q |] |]] |];
    pose proof (proj2 (submit_answer_early st assessment_id question_id selected_answer
                         response_time now ltac:(intros; congruence))) as E;
    rewrite Hret in E; discriminate E. }
  destruct Hfound as (s & pool & q & Hs & Hc & Hp & Hq).
  pose proof (submit_answer_found_value st assessment_id question_id selected_answer
                response_time now s pool q Hs Hc Hp Hq) as V.
  pose proof (proj1 (submit_answer_found st assessment_id question_id selected_answer
                       response_time now s pool q Hs Hc Hp Hq)) as F.
  cbv zeta in V, F; rewrite V in Hret; rewrite F; clear V F.
  set (st2 := answered_state st assessment_id question_id selected_answer response_time
                s pool q) in *.
  set (s2 := answered_session s q (Z.eqb selected_answer (QuestionItem.correct_answer q))) in *.
  assert (Hget2 : dict_get assessment_id (active_assessments st2) = Some s2)
    by (unfold st2, answered_state; simpl; apply dict_get_set_same).
  assert (Hmin : min_questions st2 = min_questions st)
    by apply (proj1 (answered_state_parameters st assessment_id question_id selected_answer
                       response_time s pool q)).
  assert (Hlen : List.length (Session.responses s2) = S (List.length (Session.responses s))).
  { unfold s2, answered_session; simpl; rewrite length_app; simpl; lia. }
  assert (Hact : Session.is_complete s2 = false) by (unfold s2; simpl; exact Hc).
  exists (mkStatus assessment_id false (List.length (Session.responses s))
            (Session.current_ability s)
            (if Rltb 0 (Session.standard_error s) then 1 / Session.standard_error s else 0)
            (min_questions st - List.length (Session.responses s))).
  split; [unfold get_assessment_status; rewrite Hs, Hc; reflexivity |].
  split; [reflexivity |].
  destruct (_should_continue_assessment st2 s2).
  - destruct (select_next_question_cases assessment_id st2)
      as [(e & He) | (s' & q' & Hs' & He)]; rewrite He in Hret |- *; [discriminate Hret |].
    rewrite Hget2 in Hs'; injection Hs' as <-.
    cbn [snd] in Hret; injection Hret as <-; cbn [SubmitResponse.questions_completed
      SubmitResponse.next_step SubmitResponse.current_ability_estimate SubmitResponse.precision].
    split; [exact Hlen |].
    cbn [fst]; unfold get_assessment_status.
    rewrite active_assessments_set_sessions, dict_get_set_same.
    unfold Session.set_questions_asked; cbn [Session.is_complete Session.responses
      Session.current_ability Session.standard_error].
    rewrite Hact, <- Hmin; reflexivity.
  - rewrite (complete_assessment_found assessment_id now st2 s2 Hget2) in Hret |- *.
    destruct (generate_assessment_report_state assessment_id
                (set_sessions st2 (dict_set assessment_id (Session.set_complete s2 now)
                                            (active_assessments st2)))) as [r Hr].
    rewrite Hr in Hret; cbn [snd] in Hret; injection Hret as <-.
    cbn [SubmitResponse.questions_completed SubmitResponse.next_step
      SubmitResponse.current_ability_estimate SubmitResponse.precision is_final].
    split; [exact Hlen |].
    unfold get_assessment_status; rewrite active_assessments_set_sessions, dict_get_set_same.
    unfold Session.set_complete; cbn [Session.is_complete Session.responses
      Session.current_ability Session.standard_error].
    rewrite <- Hmin; reflexivity.
Qed.

Lemma submit_answer_status_agrees_witness :
  let st := mkEngine 5 30 0.3
              [("mathematics",
                [QuestionItem.new "m1" "c1" ["x"; "y"] 1 0 1 0.1 "mathematics" "t";
                 QuestionItem.new "m2" "c2" ["x"; "y"] 0 1 1 0.1 "mathematics" "t"])]
              [("a1", Session.mk "a1" "u" "mathematics" 0 None 0 2 [] ["m1"] 1 false)] in
  let response := match snd (submit_answer "a1" "m1" 1 None 5 st) with
                  | Ret r => r
                  | Raise _ => SubmitResponse.mk false 0 0 0 0 (FinalResults ReportEmpty)
                  end in
  snd (submit_answer "a1" "m1" 1 None 5 st) = Ret response /\
  exists before,
    get_assessment_status "a1" st = Some before /\
    status_is_complete before = false /\
    SubmitResponse.questions_completed response = S (questions_completed before) /\
    get_assessment_status "a1" (fst (submit_answer "a1" "m1" 1 None 5 st))
    = Some (mkStatus "a1" (is_final (SubmitResponse.next_step response))
              (SubmitResponse.questions_completed response)
              (SubmitResponse.current_ability_estimate response)
              (SubmitResponse.precision response)
              (min_questions st - SubmitResponse.questions_completed response)).
Proof.
  intros st response.
  assert (Hret : snd (submit_answer "a1" "m1" 1 None 5 st) = Ret response).
  { assert (Hok : is_ret (snd (submit_answer "a1" "m1" 1 None 5 st)) = true) by reflexivity.
    unfold response; destruct (snd (submit_answer "a1" "m1" 1 None 5 st));
      [reflexivity | discriminate Hok]. }
  split; [exact Hret |].
  exact (submit_answer_status_agrees st "a1" "m1" 1 None 5 response Hret).
Defined.

(** ** Sessions are never removed *)

Lemma keys_dict_set_existing {V} (k : string) (v v' : V) (d : list (string * V)) :
  dict_get k d = Some v -> map fst (dict_set k v' d) = map fst d.
Proof.
  induction d as [| [k0 v0] d IH]; simpl; [discriminate |].
  destruct (String.eqb_spec k k0) as [-> | Hne]; [reflexivity |].
  intros Hk; simpl; now rewrite IH.
Qed.

Lemma keys_dict_set_keep {V} (k k' : string) (v : V) (d : list (string * V)) :
  In k' (map fst d) -> In k' (map fst (dict_set k v d)).
Proof.
  induction d as [| [k0 v0] d IH]; simpl; [tauto |].
  destruct (String.eqb k k0); simpl; intuition.
Qed.

Lemma select_next_question_keys (assessment_id : string) (st : Engine) :
  map fst (active_assessments (fst (_select_next_question assessment_id st)))
  = map fst (active_assessments st).
Proof.
  destruct (select_next_question_cases assessment_id st) as [(e & ->) | (s & q & Hs & ->)];
    [reflexivity |].
  exact (keys_dict_set_existing _ _ _ _ Hs).
Qed.

Lemma complete_assessment_keys (assessment_id : string) (now : Z) (st : Engine) :
  map fst (active_assessments (fst (_complete_assessment assessment_id now st)))
  = map fst (active_assessments st).
Proof.
  destruct (complete_assessment_cases assessment_id now st) as [-> | (s & Hs & ->)];
    [reflexivity |].
  exact (keys_dict_set_existing _ _ _ _ Hs).
Qed.

(** No operation removes an assessment session: [submit_answer] and
    [_generate_assessment_report] keep the session ids as they are, and
    [create_adaptive_assessment] keeps every id and adds at most the id it
    builds from the user and the timestamp, also when it raises. *)
Theorem sessions_never_removed (st : Engine) :
  (forall user_id subject user_context timestamp now,
     let keys' := map fst (active_assessments
                    (fst (create_adaptive_assessment user_id subject user_context timestamp
                            now st))) in
     (forall k, In k (map fst (active_assessments st)) -> In k keys') /\
     (forall k, In k keys' -> k = new_assessment_id user_id timestamp \/
                              In k (map fst (active_assessments st)))) /\
  (forall assessment_id question_id selected_answer response_time now,
     map fst (active_assessments
       (fst (submit_answer assessment_id question_id selected_answer response_time now st)))
     = map fst (active_assessments st)) /\
  (forall assessment_id,
     map fst (active_assessments (fst (_generate_assessment_report assessment_id st)))
     = map fst (active_assessments st)).
Proof.
  split; [| split].
  - intros user_id subject user_context timestamp now; cbv zeta.
    destruct (create_adaptive_assessment_cases user_id subject user_context timestamp now st)
      as [(e & ->) | (subject' & a & -> & _)]; [split; auto |].
    rewrite select_next_question_keys, active_assessments_set_sessions; split.
    + intros k; apply keys_dict_set_keep.
    + intros k Hk; exact (keys_dict_set _ _ _ _ Hk).
  - intros assessment_id question_id selected_answer response_time now.
    destruct (dict_get assessment_id (active_assessments st)) as [s |] eqn:Hs.
    2: { now rewrite (proj1 (submit_answer_early st assessment_id question_id selected_answer
                                response_time now ltac:(intros; congruence))). }
    destruct (Session.is_complete s) eqn:Hc.
    1: { now rewrite (proj1 (submit_answer_early st assessment_id question_id selected_answer
                                response_time now ltac:(intros; congruence))). }
    destruct (dict_get (Session.subject s) (question_pools st)) as [pool |] eqn:Hp.
    2: { now rewrite (proj1 (submit_answer_early st assessment_id question_id selected_answer
                                response_time now ltac:(intros; congruence))). }
    destruct (find_question question_id pool) as [q |] eqn:Hq.
    2: { now rewrite (proj1 (submit_answer_early st assessment_id question_id selected_answer
                                response_time now ltac:(intros; congruence))). }
    rewrite (proj1 (submit_answer_found st assessment_id question_id selected_answer
                      response_time now s pool q Hs Hc Hp Hq)).
    assert (H2 : map fst (active_assessments
                   (answered_state st assessment_id question_id selected_answer response_time
                      s pool q)) = map fst (active_assessments st)).
    { unfold answered_state; cbv zeta; rewrite active_assessments_set_sessions,
        statistics_state_sessions; exact (keys_dict_set_existing _ _ _ _ Hs). }
    destruct (_should_continue_assessment _ _);
      [rewrite select_next_question_keys | rewrite complete_assessment_keys]; exact H2.
  - intros assessment_id; destruct (generate_assessment_report_state assessment_id st) as [r ->];
      reflexivity.
Qed.

(** ** Direction of the ability estimate *)

Lemma accumulate_sign (correct : bool) (ability : R) (rs : list Response) (l1 l2 : R) :
  (forall d c a, In (d, c, a) rs -> c = correct /\ 0 <= a) ->
  (if correct then l1 <= fst (accumulate ability rs l1 l2)
   else fst (accumulate ability rs l1 l2) <= l1) /\
  snd (accumulate ability rs l1 l2) <= l2.
Proof.
  revert l1 l2; induction rs as [| [[d c] a] rs IH]; intros l1 l2 Hall.
  - simpl; destruct correct; lra.
  - assert (Hrs : forall d' c' a', In (d', c', a') rs -> c' = correct /\ 0 <= a')
      by (intros d' c' a' Hin; apply (Hall d' c' a'); right; exact Hin).
    destruct (Hall d c a (or_introl eq_refl)) as [-> Ha].
    cbn [accumulate].
    set (p := probability_correct ability d a 0).
    destruct (Rltb 0.001 p) eqn:Ep; [| cbn [andb]; destruct (IH l1 l2 Hrs); destruct correct; lra].
    destruct (Rltb 0.001 (1 - p)) eqn:Eq; [| cbn [andb]; destruct (IH l1 l2 Hrs); destruct correct; lra].
    apply Rltb_true in Ep, Eq; cbn [andb].
    assert (Hpq : 0 <= a * a * p * (1 - p)).
    { repeat apply Rmult_le_pos; lra. }
    destruct correct.
    + destruct (IH (l1 + a * (1 - p)) (l2 - a * a * p * (1 - p)) Hrs) as [H1 H2].
      assert (0 <= a * (1 - p)) by (apply Rmult_le_pos; lra).
      split; lra.
    + destruct (IH (l1 - a * p) (l2 - a * a * p * (1 - p)) Hrs) as [H1 H2].
      assert (0 <= a * p) by (apply Rmult_le_pos; lra).
      split; lra.
Qed.

Lemma newton_raphson_direction (correct : bool) (rs : list Response) (fuel : nat) (ability : R) :
  (forall d c a, In (d, c, a) rs -> c = correct /\ 0 <= a) ->
  if correct then ability <= newton_raphson fuel ability rs
  else newton_raphson fuel ability rs <= ability.
Proof.
  intros Hall; revert ability; induction fuel as [| fuel IH]; intros ability.
  - simpl; destruct correct; lra.
  - cbn [newton_raphson].
    pose proof (accumulate_sign correct ability rs 0 0 Hall) as Hs.
    destruct (accumulate ability rs 0 0) as [l1 l2]; cbn [fst snd] in Hs.
    destruct (Rltb 0.001 (Rabs l2)) eqn:E; [| destruct correct; lra].
    apply Rltb_true in E; rewrite Rabs_left1 in E by lra.
    assert (Hl2 : l2 < 0) by lra.
    assert (Hdelta : if correct then l1 / l2 <= 0 else 0 <= l1 / l2).
    { destruct correct; destruct Hs as [H1 _]; unfold Rdiv.
      - assert (/ l2 < 0) by (apply Rinv_lt_0_compat; exact Hl2); nra.
      - assert (/ l2 < 0) by (apply Rinv_lt_0_compat; exact Hl2); nra. }
    specialize (IH (ability - l1 / l2)).
    destruct (Rltb (Rabs (l1 / l2)) 0.001); destruct correct; lra.
Qed.

(** When every response carries the same correctness and a non-negative
    discrimination, [estimate_ability] moves the ability only one way: never
    below the initial ability when all answers are correct, never above it
    when all are wrong. *)
Theorem estimate_ability_direction (rs : list Response) (initial_ability : R) (correct : bool) :
  (forall d c a, In (d, c, a) rs -> c = correct /\ 0 <= a) ->
  if correct then initial_ability <= fst (estimate_ability rs initial_ability)
  else fst (estimate_ability rs initial_ability) <= initial_ability.
Proof.
  intros Hall; destruct rs as [| r rs'].
  - simpl; destruct correct; lra.
  - exact (newton_raphson_direction correct (r :: rs') 10 initial_ability Hall).
Qed.

Lemma estimate_ability_direction_witness :
  (forall d c a, In (d, c, a) [(0, true, 1); (1, true, 1.5)] -> c = true /\ 0 <= a) /\
  0 <= fst (estimate_ability [(0, true, 1); (1, true, 1.5)] 0).
Proof.
  assert (H : forall d c a, In (d, c, a) [(0, true, 1); (1, true, 1.5)] -> c = true /\ 0 <= a).
  { intros d c a [E | [E | []]]; injection E as <- <- <-; split; [reflexivity | lra | reflexivity | lra]. }
  split; [exact H | exact (estimate_ability_direction _ 0 true H)].
Defined.

End Extras.
